(** * Honi3: a Telegram bot answering Solana queries (src/bot.js)

    A shallow embedding of [src/bot.js].  The JavaScript values the bot
    handles are modelled by [JsVal] (numbers are IEEE-754 binary64, as in
    JavaScript), thrown values by [JsError], and the asynchronous functions
    of the bot by programs of a small free monad [Prog] whose requests
    ([Req]) are the calls that leave the file: HTTP requests made through
    axios, RPC calls made through the web3.js [Connection], the logger and
    the replies sent through the Telegraf context.  A [World] answers the
    requests; [run] executes a program against a world and records the
    requests in the order in which they were issued. *)

From Stdlib Require Import Floats Ascii ZArith.
From stdpp Require Import gmap strings list pretty.

#[local] Set Warnings "-register-all".

(** ** JavaScript values and errors *)

(** Values obtained by parsing JSON, plus [undefined]. *)
Inductive JsVal : Type :=
| JUndefined
| JNull
| JBool (b : bool)
| JNum (x : float)
| JStr (s : string)
| JArr (items : list JsVal)
| JObj (props : list (string * JsVal)).

(** An [Error] object: the bot only ever reads [message]; [cause] is the
    optional second argument of the [Error] constructor. *)
Inductive JsError : Type :=
| MkError (msg : string) (cause : option JsError).

Definition message (e : JsError) : string :=
  match e with MkError m _ => m end.

Definition error_cause (e : JsError) : option JsError :=
  match e with MkError _ c => c end.

(** [new Error(msg)] *)
Definition Error_new (msg : string) : JsError := MkError msg None.

(** The result of evaluating an expression: a value or a thrown error. *)
Inductive Result (A : Type) : Type :=
| Ok (a : A)
| Err (e : JsError).
Arguments Ok {A} a.
Arguments Err {A} e.

(** ** What the file imports *)

(** A decoded public key (the bytes of the key). *)
Definition PublicKey : Type := list N.

(** The parts of the platform that [bot.js] uses but does not define. *)
Record Host : Type := {
  (** [Number::toString], as used by template literals *)
  Number_toString : float -> string;
  (** the [TypeError] thrown when property [p] of [undefined] or [null]
      is read *)
  TypeError_read : JsVal -> string -> JsError;
  (** the [TypeError] thrown when the member [p] that is called is not a
      function *)
  TypeError_call : string -> JsError;
  (** the [TypeError] thrown when an object cannot be converted to a
      primitive value *)
  TypeError_primitive : JsError;
  (** [new PublicKey(s)] of @solana/web3.js: the key, or the error thrown
      when [s] does not decode to one *)
  PublicKey_new : string -> Result PublicKey;
  (** [process.env] *)
  process_env : string -> option string;
}.

(** ** Requests and programs *)

Record AxiosConfig : Type := {
  headers : list (string * string);
  params : list (string * string);
}.

(** [new Connection(endpoint, commitment)] *)
Record Connection : Type := {
  endpoint : string;
  commitment : string;
}.

(** The value [getTokenAccountsByOwner] resolves to: [value] is an array;
    its entries are kept dynamic. *)
Record TokenAccounts : Type := {
  value : list JsVal;
}.

Record FeeCalculator : Type := {
  lamportsPerSignature : float;
}.

(** The value [getRecentBlockhash] resolves to. *)
Record BlockhashInfo : Type := {
  blockhash : string;
  feeCalculator : FeeCalculator;
}.

Inductive Req : Type :=
| AxiosGet (url : string) (config : AxiosConfig)
| GetTokenAccountsByOwner (conn : Connection) (owner mint : PublicKey)
| GetBalance (conn : Connection) (owner : PublicKey)
| GetRecentBlockhash (conn : Connection)
| BotLaunch (token : option string)
| LoggerInfo (msg : string)
| LoggerError (msg : string)
| CtxReply (text : string).

(** What the caller gets back: an awaited promise settles to a value or a
    rejection; the logger and [ctx.reply] (whose promise the bot never
    awaits) hand back nothing. *)
Definition Resp (r : Req) : Type :=
  match r with
  | AxiosGet _ _ => Result JsVal
  | GetTokenAccountsByOwner _ _ _ => Result TokenAccounts
  | GetBalance _ _ => Result float
  | GetRecentBlockhash _ => Result BlockhashInfo
  | BotLaunch _ => Result unit
  | LoggerInfo _ | LoggerError _ | CtxReply _ => unit
  end.

Inductive Prog (A : Type) : Type :=
| Ret (a : A)
| Throw (e : JsError)
| Vis (r : Req) (k : Resp r -> Prog A).
Arguments Ret {A} a.
Arguments Throw {A} e.
Arguments Vis {A} r k.

Fixpoint bind {A B : Type} (p : Prog A) (f : A -> Prog B) : Prog B :=
  match p with
  | Ret a => f a
  | Throw e => Throw e
  | Vis r k => Vis r (fun x => bind (k x) f)
  end.

(** [try { p } catch (error) { handler error }] *)
Fixpoint try_catch {A : Type} (p : Prog A) (handler : JsError -> Prog A) : Prog A :=
  match p with
  | Ret a => Ret a
  | Throw e => handler e
  | Vis r k => Vis r (fun x => try_catch (k x) handler)
  end.

#[export] Instance Prog_ret : MRet Prog := fun A a => Ret a.
#[export] Instance Prog_bind : MBind Prog := fun A B f p => bind p f.

(** Lift the evaluation of an expression that may throw. *)
Definition eval {A : Type} (r : Result A) : Prog A :=
  match r with
  | Ok a => Ret a
  | Err e => Throw e
  end.

(** [await] of the promise a request returns. *)
Definition axios_get (url : string) (config : AxiosConfig) : Prog JsVal :=
  Vis (AxiosGet url config) eval.

Definition getTokenAccountsByOwner (conn : Connection) (owner mint : PublicKey)
  : Prog TokenAccounts :=
  Vis (GetTokenAccountsByOwner conn owner mint) eval.

Definition getBalance (conn : Connection) (owner : PublicKey) : Prog float :=
  Vis (GetBalance conn owner) eval.

Definition getRecentBlockhash (conn : Connection) : Prog BlockhashInfo :=
  Vis (GetRecentBlockhash conn) eval.



Definition logger_error (msg : string) : Prog unit :=
  Vis (LoggerError msg) (fun _ => Ret tt).

(** [ctx.reply(text)]: the message is sent, its promise is dropped. *)
Definition ctx_reply (text : string) : Prog unit :=
  Vis (CtxReply text) (fun _ => Ret tt).

(** ** Worlds and runs *)

(** A world answers each request, knowing the requests issued so far. *)
Definition World : Type := forall r : Req, list Req -> Resp r.

(** [run w p h]: the outcome of [p] in world [w] after the requests [h],
    and the requests issued up to its end. *)
Fixpoint run {A : Type} (w : World) (p : Prog A) (h : list Req) : Result A * list Req :=
  match p with
  | Ret a => (Ok a, h)
  | Throw e => (Err e, h)
  | Vis r k => run w (k (w r h)) (h ++ [r])
  end.

#[export] Instance Result_ret : MRet Result := fun A a => Ok a.
#[export] Instance Result_bind : MBind Result := fun A B f r =>
  match r with
  | Ok a => f a
  | Err e => Err e
  end.

(** ** The JavaScript operators the bot applies to dynamic values *)

(** Own property [p] of a parsed object: the first binding of [p]. *)
Fixpoint assoc (p : string) (props : list (string * JsVal)) : option JsVal :=
  match props with
  | [] => None
  | (k, v) :: rest => if decide (k = p) then Some v else assoc p rest
  end.

Section Operators.
Context (host : Host).

(** [v.p], for the property names that occur in [bot.js]; none of them
    is defined by a built-in prototype, so only own properties of
    objects are found. *)
Definition js_get (v : JsVal) (p : string) : Result JsVal :=
  match v with
  | JUndefined | JNull => Err (TypeError_read host v p)
  | JObj props => Ok (default JUndefined (assoc p props))
  | _ => Ok JUndefined
  end.

(** ToBoolean *)
Definition js_truthy (v : JsVal) : bool :=
  match v with
  | JUndefined | JNull => false
  | JBool b => b
  | JNum x => (x =? x)%float && negb (x =? 0)%float
  | JStr s => negb (String.eqb s "")
  | JArr _ | JObj _ => true
  end.

(** [a || b] *)
Definition js_or (a b : JsVal) : JsVal := if js_truthy a then a else b.

(** [items.join(sep)] once the items are converted. *)
Fixpoint join_all (pieces : list (Result string)) : Result string :=
  match pieces with
  | [] => Ok ""
  | [r] => r
  | r :: rest => s ← r; t ← join_all rest; Ok (s +:+ "," +:+ t)
  end.

(** ToString.  An array is joined with commas, [undefined] and [null]
    entries giving the empty string; a parsed object has no callable
    [toString] of its own, so it prints as [[object Object]] unless an
    own property shadows the inherited one, in which case the
    conversion throws. *)
Fixpoint js_ToString (v : JsVal) : Result string :=
  match v with
  | JUndefined => Ok "undefined"
  | JNull => Ok "null"
  | JBool b => Ok (if b then "true" else "false")
  | JNum x => Ok (Number_toString host x)
  | JStr s => Ok s
  | JArr items =>
      join_all (List.map (fun x => match x with
                                   | JUndefined | JNull => Ok ""
                                   | _ => js_ToString x
                                   end) items)
  | JObj props =>
      match assoc "toString" props with
      | Some _ => Err (TypeError_primitive host)
      | None => Ok "[object Object]"
      end
  end.

(** [a || b] on the strings of [process.env]. *)
Definition env_or (a : option string) (b : string) : string :=
  match a with
  | Some s => if String.eqb s "" then b else s
  | None => b
  end.
End Operators.

(** [s.split(sep)] for a separator of one character. *)
Fixpoint js_split (sep : Ascii.ascii) (s : string) : list string :=
  match s with
  | EmptyString => [""]
  | String c s' =>
      if Ascii.eqb c sep then "" :: js_split sep s'
      else match js_split sep s' with
           | [] => [String c ""]
           | w :: ws => String c w :: ws
           end
  end.

(** ** The object [prices] *)

(** The prototype of an object created by [{}]: [Object.prototype] until
    an assignment to [__proto__] replaces it. *)
Inductive Proto : Type :=
| ObjectPrototype
| ProtoNull
| ProtoVal (v : JsVal).

Record Obj : Type := {
  own : gmap string JsVal;
  proto : Proto;
}.

(** [{}] *)
Definition obj_empty : Obj := {| own := ∅; proto := ObjectPrototype |}.

Definition obj_define (o : Obj) (k : string) (v : JsVal) : Obj :=
  {| own := <[k := v]> (own o); proto := proto o |}.

(** The setter of [Object.prototype.__proto__]. *)
Definition obj_set_proto (o : Obj) (v : JsVal) : Obj :=
  match v with
  | JObj _ | JArr _ => {| own := own o; proto := ProtoVal v |}
  | JNull => {| own := own o; proto := ProtoNull |}
  | _ => o
  end.

(** [o[k] = v].  Every key but [__proto__] becomes an own property; for
    [__proto__] the inherited setter runs unless the property is found
    as a data property first. *)
Definition obj_set (o : Obj) (k : string) (v : JsVal) : Obj :=
  if decide (k = "__proto__") then
    match own o !! k with
    | Some _ => obj_define o k v
    | None =>
        match proto o with
        | ProtoNull => obj_define o k v
        | ProtoVal (JObj props) =>
            match assoc k props with
            | Some _ => obj_define o k v
            | None => obj_set_proto o v
            end
        | _ => obj_set_proto o v
        end
    end
  else obj_define o k v.

(** [o.p] for [p] among [solana], [bitcoin], [ethereum]: an own property,
    or else one inherited from a parsed object. *)
Definition obj_get (o : Obj) (p : string) : JsVal :=
  match own o !! p with
  | Some v => v
  | None =>
      match proto o with
      | ProtoVal (JObj props) => default JUndefined (assoc p props)
      | _ => JUndefined
      end
  end.

(** ** The bot *)

(** A line break inside a template literal. *)
Definition nl : string := String (Ascii.ascii_of_nat 10) "".

(** [new Bottleneck({ minTime: 300, maxConcurrent: 5 })] *)
Record Bottleneck : Type := {
  minTime : Z;
  maxConcurrent : nat;
}.

Definition limiter : Bottleneck := {| minTime := 300; maxConcurrent := 5 |}.

Record Config : Type := {
  BOT_TOKEN : option string;
  SOLANA_RPC_URL : string;
  SOLSCAN_API_KEY : string;
  SOLSCAN_API_URL : string;
  COINGECKO_API_URL : string;
}.

(** What [analyzeToken] returns. *)
Record Analysis : Type := {
  tokenInfo : JsVal;
  balance : JsVal;
  prices : Obj;
  gasFee : float;
}.

(** The commands registered with [bot.command]. *)
Inductive Command : Type :=
| CmdCheck
| CmdBalance
| CmdPrices
| CmdGas
| CmdHelp.

Section Bot.
Context (host : Host).

Definition config : Config := {|
  BOT_TOKEN := process_env host "BOT_TOKEN";
  SOLANA_RPC_URL :=
    env_or (process_env host "SOLANA_RPC_URL") "https://api.mainnet-beta.solana.com";
  SOLSCAN_API_KEY := env_or (process_env host "SOLSCAN_API_KEY") "";
  SOLSCAN_API_URL := "https://api.solscan.io";
  COINGECKO_API_URL := "https://api.coingecko.com/api/v3";
|}.

Definition connection : Connection :=
  {| endpoint := SOLANA_RPC_URL config; commitment := "confirmed" |}.

Definition getTokenInfoFromSolscan (tokenAddress : string) : Prog JsVal :=
  try_catch
    (data ← axios_get
        (SOLSCAN_API_URL config +:+ "/api/v1/tokenInfo/" +:+ tokenAddress)
        {| headers := [("Authorization", "Bearer " +:+ SOLSCAN_API_KEY config)];
           params := [] |};
     eval (js_get host data "data"))
    (fun error =>
       logger_error ("Error fetching token info from Solscan: " +:+ message error);;
       Throw (Error_new "Failed to fetch token info.")).

(** [value[0]?.account.data.parsed.info.tokenAmount.uiAmount] *)
Definition first_uiAmount (tokenAccount : TokenAccounts) : Result JsVal :=
  match value tokenAccount !! 0%nat with
  | None | Some JUndefined | Some JNull => Ok JUndefined
  | Some entry =>
      account ← js_get host entry "account";
      data ← js_get host account "data";
      parsed ← js_get host data "parsed";
      info ← js_get host parsed "info";
      tokenAmount ← js_get host info "tokenAmount";
      js_get host tokenAmount "uiAmount"
  end.

Definition getTokenBalance (address tokenAddress : string) : Prog JsVal :=
  try_catch
    (publicKey ← eval (PublicKey_new host address);
     mint ← eval (PublicKey_new host tokenAddress);
     tokenAccount ← getTokenAccountsByOwner connection publicKey mint;
     uiAmount ← eval (first_uiAmount tokenAccount);
     Ret (js_or uiAmount (JNum 0)))
    (fun error =>
       logger_error ("Error fetching token balance: " +:+ message error);;
       Throw (Error_new "Failed to fetch token balance.")).

(** [prices[coin.id] = coin.current_price] *)
Definition set_price (prices : Obj) (coin : JsVal) : Result Obj :=
  id ← js_get host coin "id";
  current_price ← js_get host coin "current_price";
  key ← js_ToString host id;
  Ok (obj_set prices key current_price).

(** [coins.forEach(coin => { prices[coin.id] = coin.current_price })] *)
Fixpoint forEach_set_price (coins : list JsVal) (prices : Obj) : Result Obj :=
  match coins with
  | [] => Ok prices
  | coin :: rest => prices' ← set_price prices coin; forEach_set_price rest prices'
  end.

(** [response.data.forEach(...)] on whatever the response carries. *)
Definition collect_prices (data : JsVal) : Result Obj :=
  match data with
  | JArr coins => forEach_set_price coins obj_empty
  | JUndefined | JNull => Err (TypeError_read host data "forEach")
  | _ => Err (TypeError_call host "response.data.forEach")
  end.

Definition getCryptoPrices : Prog Obj :=
  try_catch
    (data ← axios_get
        (COINGECKO_API_URL config +:+ "/coins/markets")
        {| headers := [];
           params := [("vs_currency", "usd"); ("ids", "solana,bitcoin,ethereum")] |};
     eval (collect_prices data))
    (fun error =>
       logger_error ("Error fetching crypto prices: " +:+ message error);;
       Throw (Error_new "Failed to fetch crypto prices.")).

Definition getSolanaGasFee : Prog float :=
  try_catch
    (blockhash ← getRecentBlockhash connection;
     let fee := lamportsPerSignature (feeCalculator blockhash) in
     Ret (fee / 1000000000)%float)
    (fun error =>
       logger_error ("Error fetching gas fee: " +:+ message error);;
       Throw (Error_new "Failed to get Solana gas fee.")).

Definition analyzeToken (address tokenAddress : string) : Prog Analysis :=
  try_catch
    (tokenInfo ← getTokenInfoFromSolscan tokenAddress;
     balance ← getTokenBalance address tokenAddress;
     prices ← getCryptoPrices;
     gasFee ← getSolanaGasFee;
     Ret {| tokenInfo := tokenInfo; balance := balance;
            prices := prices; gasFee := gasFee |})
    (fun error =>
       logger_error ("Error during analysis: " +:+ message error);;
       Throw (Error_new "Failed to analyze token.")).

(** [ctx.message.text.split(' ').slice(1)] *)
Definition command_args (text : string) : list string :=
  drop 1 (js_split " "%char text).

(** The template literal of the [/check] reply; the substitutions are
    evaluated and converted from left to right. *)
Definition check_report (analysis : Analysis) : Result string :=
  name ← js_get host (tokenInfo analysis) "name";
  name_s ← js_ToString host name;
  symbol ← js_get host (tokenInfo analysis) "symbol";
  symbol_s ← js_ToString host symbol;
  price_s ← js_ToString host (obj_get (prices analysis) "solana");
  balance_s ← js_ToString host (balance analysis);
  symbol' ← js_get host (tokenInfo analysis) "symbol";
  symbol_s' ← js_ToString host symbol';
  Ok (nl +:+
      "            🧾 **Token Analysis:**" +:+ nl +:+
      "            - **Token Name**: " +:+ name_s +:+ nl +:+
      "            - **Token Symbol**: " +:+ symbol_s +:+ nl +:+
      "            - **Token Price**: $" +:+ price_s +:+ nl +:+
      "            - **Your Balance**: " +:+ balance_s +:+ " " +:+ symbol_s' +:+ nl +:+
      "            - **Gas Fee**: " +:+ Number_toString host (gasFee analysis) +:+ " SOL" +:+ nl +:+
      "        ").

(** The [catch] block shared by the handlers. *)
Definition reply_error (error : JsError) : Prog unit :=
  ctx_reply ("❌ Error: " +:+ message error).

Definition check_command (text : string) : Prog unit :=
  let args := command_args text in
  if (length args <? 2)%nat then
    ctx_reply "❌ Usage: /check <TOKEN_ADDRESS> <SOLANA_ADDRESS>"
  else
    match args with
    | tokenAddress :: address :: _ =>
        try_catch
          (ctx_reply "🔍 Analyzing the token. Please wait...";;
           analysis ← analyzeToken address tokenAddress;
           report ← eval (check_report analysis);
           ctx_reply report)
          reply_error
    | _ => Ret tt
    end.

Definition balance_command (text : string) : Prog unit :=
  let args := command_args text in
  if (length args <? 1)%nat then
    ctx_reply "❌ Usage: /balance <SOLANA_ADDRESS>"
  else
    match args with
    | address :: _ =>
        try_catch
          (publicKey ← eval (PublicKey_new host address);
           balance ← getBalance connection publicKey;
           ctx_reply ("📊 **Solana Balance**: " +:+
                      Number_toString host (balance / 1000000000)%float +:+ " SOL"))
          reply_error
    | _ => Ret tt
    end.

(** The template literal of the [/prices] reply. *)
Definition prices_report (prices : Obj) : Result string :=
  solana ← js_ToString host (obj_get prices "solana");
  bitcoin ← js_ToString host (obj_get prices "bitcoin");
  ethereum ← js_ToString host (obj_get prices "ethereum");
  Ok (nl +:+
      "            💰 **Current Crypto Prices**:" +:+ nl +:+
      "            - Solana: $" +:+ solana +:+ nl +:+
      "            - Bitcoin: $" +:+ bitcoin +:+ nl +:+
      "            - Ethereum: $" +:+ ethereum +:+ nl +:+
      "        ").

Definition prices_command : Prog unit :=
  try_catch
    (prices ← getCryptoPrices;
     report ← eval (prices_report prices);
     ctx_reply report)
    reply_error.

Definition gas_command : Prog unit :=
  try_catch
    (gasFee ← getSolanaGasFee;
     ctx_reply ("⛽ **Solana Gas Fee**: " +:+ Number_toString host gasFee +:+
                " SOL per transaction"))
    reply_error.

Definition help_text : string :=
  nl +:+
  "        🚀 **Solana Honeypot Checker Bot - Commands**:" +:+ nl +:+
  nl +:+
  "        /check <TOKEN_ADDRESS> <SOLANA_ADDRESS> - Analyze token info" +:+ nl +:+
  "        /balance <SOLANA_ADDRESS> - Get Solana balance" +:+ nl +:+
  "        /prices - Get current prices of Solana, Bitcoin, and Ethereum" +:+ nl +:+
  "        /gas - Get Solana gas fees" +:+ nl +:+
  "        /help - Display this help message" +:+ nl +:+
  "    ".

Definition help_command : Prog unit := ctx_reply help_text.

(** The handler Telegraf runs for a message carrying command [c]. *)
Definition handle (c : Command) (text : string) : Prog unit :=
  match c with
  | CmdCheck => check_command text
  | CmdBalance => balance_command text
  | CmdPrices => prices_command
  | CmdGas => gas_command
  | CmdHelp => help_command
  end.

(** The bot handling a sequence of commands one after the other. *)
Fixpoint serve (updates : list (Command * string)) : Prog unit :=
  match updates with
  | [] => Ret tt
  | (c, text) :: rest => handle c text;; serve rest
  end.

End Bot.

(** ** The requests a program issues before it first suspends *)

(** The logger is synchronous and the promise of [ctx.reply] is never
    awaited: the caller goes on at once.  Every other request is awaited. *)
Definition immediate (r : Req) : option (Resp r) :=
  match r with
  | LoggerInfo _ | LoggerError _ | CtxReply _ => Some tt
  | _ => None
  end.

(** An async function runs synchronously up to its first [await]; this is
    the request it is then waiting for. *)
Fixpoint first_await {A : Type} (p : Prog A) : option Req :=
  match p with
  | Ret _ | Throw _ => None
  | Vis r k =>
      match immediate r with
      | Some x => first_await (k x)
      | None => Some r
      end
  end.

(** Handlers invoked at time [now] (in ms): each one issues the request it
    first awaits at that same time, nothing in the file delaying it. *)
Definition start_times {A : Type} (now : Z) (handlers : list (Prog A)) : list (Z * Req) :=
  omap (fun p => pair now <$> first_await p) handlers.

(** The calls to the three external services. *)
Definition is_service_call (r : Req) : bool :=
  match r with
  | AxiosGet _ _ | GetTokenAccountsByOwner _ _ _ | GetBalance _ _
  | GetRecentBlockhash _ => true
  | _ => false
  end.

(** ** The requests of the clients and the sub-calls of the analysis *)

(** The request [getTokenInfoFromSolscan] makes. *)
Definition tokenInfo_request (host : Host) (tokenAddress : string) : Req :=
  AxiosGet (SOLSCAN_API_URL (config host) +:+ "/api/v1/tokenInfo/" +:+ tokenAddress)
    {| headers := [("Authorization", "Bearer " +:+ SOLSCAN_API_KEY (config host))];
       params := [] |}.

(** The request [getCryptoPrices] makes. *)
Definition prices_request (host : Host) : Req :=
  AxiosGet (COINGECKO_API_URL (config host) +:+ "/coins/markets")
    {| headers := [];
       params := [("vs_currency", "usd"); ("ids", "solana,bitcoin,ethereum")] |}.

(** The service calls of a complete analysis, in order.  Without a wallet
    address and a token address that parse, only the first can be made. *)
Definition analysis_requests (host : Host) (address tokenAddress : string) : list Req :=
  tokenInfo_request host tokenAddress ::
  match PublicKey_new host address, PublicKey_new host tokenAddress with
  | Ok owner, Ok mint =>
      [GetTokenAccountsByOwner (connection host) owner mint;
       prices_request host;
       GetRecentBlockhash (connection host)]
  | _, _ => []
  end.

(** The four sub-calls of [analyze] in the order of the specification:
    token metadata, token balance, prices, fee; each one starts where the
    previous one ended, and the first failure ends the sequence with the
    error of the failing sub-call. *)
Definition sub_calls (host : Host) (w : World) (address tokenAddress : string)
    (h : list Req) : Result Analysis * list Req :=
  match run w (getTokenInfoFromSolscan host tokenAddress) h with
  | (Err e, h1) => (Err e, h1)
  | (Ok tokenInfo, h1) =>
      match run w (getTokenBalance host address tokenAddress) h1 with
      | (Err e, h2) => (Err e, h2)
      | (Ok balance, h2) =>
          match run w (getCryptoPrices host) h2 with
          | (Err e, h3) => (Err e, h3)
          | (Ok prices, h3) =>
              match run w (getSolanaGasFee host) h3 with
              | (Err e, h4) => (Err e, h4)
              | (Ok gasFee, h4) =>
                  (Ok {| tokenInfo := tokenInfo; balance := balance;
                         prices := prices; gasFee := gasFee |}, h4)
              end
          end
      end
  end.

(** The key under which [forEach] files a coin. *)
Definition coin_key (host : Host) (coin : JsVal) : Result string :=
  id ← js_get host coin "id"; js_ToString host id.

(** The number of occurrences of a character. *)
Fixpoint count_char (c : Ascii.ascii) (s : string) : nat :=
  match s with
  | EmptyString => 0
  | String d s' => (if Ascii.eqb d c then 1 else 0) + count_char c s'
  end.

(** ** Observations on the requests of a run *)

(** [ctx.reply] *)
Definition is_reply (r : Req) : bool :=
  match r with
  | CtxReply _ => true
  | _ => false
  end.

(** [logger.error] *)
Definition is_error_log (r : Req) : bool :=
  match r with
  | LoggerError _ => true
  | _ => false
  end.



(** The name each handler is registered under with [bot.command]. *)
Definition command_name (c : Command) : string :=
  match c with
  | CmdCheck => "check"
  | CmdBalance => "balance"
  | CmdPrices => "prices"
  | CmdGas => "gas"
  | CmdHelp => "help"
  end.

(** ** The statements of the specification that the code does not meet *)

(** What C5 says: the fee is returned in lamports, as the RPC node
    reports it. *)
Definition fee_in_lamports : Prop :=
  forall (host : Host) (w : World) (h : list Req) (info : BlockhashInfo),
    w (GetRecentBlockhash (connection host)) h = Ok info ->
    (run w (getSolanaGasFee host) h).1 = Ok (lamportsPerSignature (feeCalculator info)).

(** What C2 says of a failure: the error that [analyze] surfaces wraps
    the error of the failing sub-call. *)
Definition failure_wraps_cause : Prop :=
  forall (host : Host) (w : World) (address tokenAddress : string) (h h' : list Req)
         (e : JsError),
    sub_calls host w address tokenAddress h = (Err e, h') ->
    exists e', (run w (analyzeToken host address tokenAddress) h).1 = Err e' /\
               error_cause e' = Some e.

(** What C3 says: when an address does not parse, each operation that
    takes it fails with the error of the address parser, and no service
    has been called by then (for [/balance], whose handler catches the
    error, the reply carries it). *)
Definition rejects_malformed_address : Prop :=
  forall (host : Host) (w : World) (h : list Req) (address : string) (e : JsError),
    PublicKey_new host address = Err e ->
    (forall tokenAddress, exists t,
        run w (getTokenBalance host address tokenAddress) h = (Err e, h ++ t) /\
        List.filter is_service_call t = []) /\
    (forall text rest, command_args text = address :: rest ->
        run w (balance_command host text) h =
        (Ok tt, h ++ [CtxReply ("❌ Error: " +:+ message e)])) /\
    (forall tokenAddress, exists t,
        run w (analyzeToken host address tokenAddress) h = (Err e, h ++ t) /\
        List.filter is_service_call t = []).

(** ** A concrete host and concrete worlds *)

Module Sample.

Definition base58_alphabet : string :=
  "123456789ABCDEFGHJKLMNPQRSTUVWXYZabcdefghijkmnopqrstuvwxyz".

Fixpoint index_of (c : Ascii.ascii) (s : string) (i : N) : option N :=
  match s with
  | EmptyString => None
  | String d s' => if Ascii.eqb c d then Some i else index_of c s' (i + 1)%N
  end.

Fixpoint base58_number (s : string) (acc : N) : option N :=
  match s with
  | EmptyString => Some acc
  | String c s' =>
      match index_of c base58_alphabet 0%N with
      | Some d => base58_number s' (acc * 58 + d)%N
      | None => None
      end
  end.

Fixpoint leading_ones (s : string) : nat :=
  match s with
  | String "1"%char s' => S (leading_ones s')
  | _ => 0%nat
  end.

Fixpoint big_endian (fuel : nat) (n : N) (acc : list N) : list N :=
  match fuel with
  | O => acc
  | S fuel' =>
      if (n =? 0)%N then acc
      else big_endian fuel' (n / 256)%N ((n mod 256)%N :: acc)
  end.

(** Base58 text to bytes: each leading [1] is a zero byte. *)
Definition base58_decode (s : string) : option (list N) :=
  match base58_number s 0%N with
  | Some n => Some (replicate (leading_ones s) 0%N ++ big_endian (String.length s) n [])
  | None => None
  end.

(** A key is base58 text that decodes to 32 bytes. *)
Definition new_PublicKey (s : string) : Result PublicKey :=
  match base58_decode s with
  | Some bytes =>
      if bool_decide (length bytes = 32%nat) then Ok bytes
      else Err (Error_new "Invalid public key input")
  | None => Err (Error_new "Non-base58 character")
  end.

(** A positive rational as numerator and denominator. *)
Definition scaled (m e2 e10 : Z) : Z * Z :=
  ((m * (if (0 <=? e2)%Z then 2 ^ e2 else 1) * (if (0 <=? e10)%Z then 10 ^ e10 else 1))%Z,
   ((if (0 <=? e2)%Z then 1 else 2 ^ (- e2)) * (if (0 <=? e10)%Z then 1 else 10 ^ (- e10)))%Z).

Definition qle (p q : Z * Z) : bool := (p.1 * q.2 <=? q.1 * p.2)%Z.
Definition qlt (p q : Z * Z) : bool := (p.1 * q.2 <? q.1 * p.2)%Z.
Definition qsub (p q : Z * Z) : Z * Z := ((p.1 * q.2 - q.1 * p.2)%Z, (p.2 * q.2)%Z).

(** The largest [E] with [10 ^ E <= x], searched downwards from a bound. *)
Fixpoint log10_floor (fuel : nat) (x : Z * Z) (E : Z) : Z :=
  match fuel with
  | O => E
  | S fuel' => if qle (scaled 1 0 E) x then E else log10_floor fuel' x (E - 1)
  end.

(** The decimal digits [s], their number [k] and the position [n] of the
    decimal point for the finite positive number [m * 2 ^ e]: the fewest
    digits that read back as the same number. *)
Fixpoint shortest (fuel : nat) (k : Z) (m e E : Z) : Z * Z * Z :=
  let x := scaled m e 0 in
  let up := scaled 1 (e - 1) 0 in
  let down := if (m =? 2 ^ 52)%Z && (-1074 <? e)%Z then scaled 1 (e - 2) 0 else up in
  let inside v :=
    if Z.even m
    then qle (qsub x down) v && qle (qsub v x) up
    else qlt (qsub x down) v && qlt (qsub v x) up in
  let p := (E + 1 - k)%Z in
  let lo := (((x.1 * (scaled 1 0 p).2) / (x.2 * (scaled 1 0 p).1)))%Z in
  let hi := (lo + 1)%Z in
  let vlo := scaled lo 0 p in
  let vhi := scaled hi 0 p in
  let pick (s : Z) := if (s =? 10 ^ k)%Z then (10 ^ (k - 1), k, E + 2)%Z else (s, k, E + 1)%Z in
  match fuel with
  | O => pick lo
  | S fuel' =>
      match inside vlo && (0 <? lo)%Z, inside vhi with
      | true, true =>
          let dlo := qsub x vlo in
          let dhi := qsub vhi x in
          if qlt dlo dhi then pick lo
          else if qlt dhi dlo then pick hi
          else if Z.even lo then pick lo else pick hi
      | true, false => pick lo
      | false, true => pick hi
      | false, false => shortest fuel' (k + 1) m e E
      end
  end.

Definition digits (s : Z) : string := pretty (Z.to_N s).

Definition zeros (n : Z) : string := String.concat "" (replicate (Z.to_nat n) "0").

Definition exponent (n : Z) : string :=
  (if (0 <=? n - 1)%Z then "e+" else "e-") +:+ digits (Z.abs (n - 1)).

Definition layout (s k n : Z) : string :=
  let d := digits s in
  if (k <=? n)%Z && (n <=? 21)%Z then d +:+ zeros (n - k)
  else if (0 <? n)%Z && (n <=? 21)%Z then
    String.substring 0 (Z.to_nat n) d +:+ "." +:+ String.substring (Z.to_nat n) (Z.to_nat (k - n)) d
  else if (-6 <? n)%Z && (n <=? 0)%Z then "0." +:+ zeros (- n) +:+ d
  else if (k =? 1)%Z then d +:+ exponent n
  else String.substring 0 1 d +:+ "." +:+ String.substring 1 (Z.to_nat (k - 1)) d +:+ exponent n.

(** [Number::toString] in base 10. *)
Definition print_number (x : float) : string :=
  match Prim2SF x with
  | S754_nan => "NaN"
  | S754_zero _ => "0"
  | S754_infinity sign => if sign then "-Infinity" else "Infinity"
  | S754_finite sign m e =>
      let x := scaled (Z.pos m) e 0 in
      let E := log10_floor 4 x ((Z.log2 (Z.pos m) + e + 1) * 1233 / 4096 + 1) in
      let '(s, k, n) := shortest 17 1 (Z.pos m) e E in
      (if sign then "-" else "") +:+ layout s k n
  end.
Definition nullish (v : JsVal) : string :=
  match v with
  | JUndefined => "undefined"
  | _ => "null"
  end.

(** A host with the messages of V8 and an empty environment. *)
Definition host : Host := {|
  Number_toString := print_number;
  TypeError_read := fun v p =>
    Error_new ("Cannot read properties of " +:+ nullish v +:+ " (reading '" +:+ p +:+ "')");
  TypeError_call := fun p => Error_new (p +:+ " is not a function");
  TypeError_primitive := Error_new "Cannot convert object to primitive value";
  PublicKey_new := new_PublicKey;
  process_env := fun _ => None;
|}.

(** The answers of the external services, independent of the history. *)
Record Services : Type := {
  http : string -> AxiosConfig -> Result JsVal;
  token_accounts : PublicKey -> PublicKey -> Result TokenAccounts;
  lamports : PublicKey -> Result float;
  recent_blockhash : Result BlockhashInfo;
  launched : Result unit;
}.

Definition world (s : Services) : World := fun r _ =>
  match r as r0 return Resp r0 with
  | AxiosGet url config => http s url config
  | GetTokenAccountsByOwner _ owner mint => token_accounts s owner mint
  | GetBalance _ owner => lamports s owner
  | GetRecentBlockhash _ => recent_blockhash s
  | BotLaunch _ => launched s
  | LoggerInfo _ | LoggerError _ | CtxReply _ => tt
  end.

Definition coin (id : string) (price : float) : JsVal :=
  JObj [("id", JStr id); ("current_price", JNum price)].

(** Every service answers. *)
Definition up : Services := {|
  http := fun url _ =>
    if String.prefix "https://api.solscan.io" url
    then Ok (JObj [("data", JObj [("name", JStr "USD Coin"); ("symbol", JStr "USDC")])])
    else Ok (JArr [coin "bitcoin" 67000; coin "ethereum" 3500.5; coin "solana" 150.25]);
  token_accounts := fun _ _ => Ok {| value := [] |};
  lamports := fun _ => Ok 5000%float;
  recent_blockhash :=
    Ok {| blockhash := "EkSnNWid2cvwEVnVx9aBqawnmiCNiDgp3gUdkDPTKN1N";
          feeCalculator := {| lamportsPerSignature := 5000 |} |};
  launched := Ok tt;
|}.

(** Every service is unreachable. *)
Definition down : Services := {|
  http := fun _ _ => Err (Error_new "Request failed with status code 500");
  token_accounts := fun _ _ => Err (Error_new "failed to get token accounts");
  lamports := fun _ => Err (Error_new "failed to get balance");
  recent_blockhash := Err (Error_new "failed to get recent blockhash");
  launched := Err (Error_new "401: Unauthorized");
|}.

Definition wallet : string := "11111111111111111111111111111111".
Definition mint : string := "EPjFWdd5AufqSSqeM2qN1xzybapC8G4wEGGkZwyTDt1v".

Definition key_of (s : string) : PublicKey :=
  match new_PublicKey s with
  | Ok key => key
  | Err _ => []
  end.

Definition wallet_key : PublicKey := Eval vm_compute in key_of wallet.
Definition mint_key : PublicKey := Eval vm_compute in key_of mint.

(** What the analysis of [mint] for [wallet] returns when every service
    answers. *)
Definition analysis : Analysis := {|
  tokenInfo := JObj [("name", JStr "USD Coin"); ("symbol", JStr "USDC")];
  balance := JNum 0;
  prices :=
    {| own := <["solana" := JNum 150.25]>
                (<["ethereum" := JNum 3500.5]> (<["bitcoin" := JNum 67000]> ∅));
       proto := ObjectPrototype |};
  gasFee := 5000 / 1000000000;
|}.

End Sample.

(** ** More concrete worlds *)

Module Cases.


(** A token account whose data is left encoded. *)
Definition encoded_entry : JsVal :=
  JObj [("pubkey", JStr "7UX2i7SucgLMQcfZ75s3VXmZZY4YRUyJN9X1RgfMoDUi");
        ("account", JObj [("data", JArr [JStr "AQID"; JStr "base64"])])].

(** Every service answers; the wallet holds the given token accounts. *)
Definition holding (entries : list JsVal) : Sample.Services := {|
  Sample.http := Sample.http Sample.up;
  Sample.token_accounts := fun _ _ => Ok {| value := entries |};
  Sample.lamports := Sample.lamports Sample.up;
  Sample.recent_blockhash := Sample.recent_blockhash Sample.up;
  Sample.launched := Sample.launched Sample.up;
|}.

(** Every service answers; the two HTTP services answer with the given
    bodies. *)
Definition answering (metadata batch : JsVal) : Sample.Services := {|
  Sample.http := fun url _ =>
    if String.prefix "https://api.solscan.io" url then Ok metadata else Ok batch;
  Sample.token_accounts := Sample.token_accounts Sample.up;
  Sample.lamports := Sample.lamports Sample.up;
  Sample.recent_blockhash := Sample.recent_blockhash Sample.up;
  Sample.launched := Sample.launched Sample.up;
|}.

End Cases.

(** ** Running programs: general facts *)

(** Unfold the monadic notation down to [bind]. *)
Ltac unfold_monad :=
  unfold mbind, mret, Prog_bind, Prog_ret, Result_bind, Result_ret in *.

Lemma run_bind {A B : Type} (w : World) (p : Prog A) (f : A -> Prog B) (h : list Req) :
  run w (bind p f) h =
  match run w p h with
  | (Ok a, h') => run w (f a) h'
  | (Err e, h') => (Err e, h')
  end.
Proof.
  revert h. induction p as [a | e | r k IH]; intros h; simpl; auto.
Qed.

Lemma run_try_catch {A : Type} (w : World) (p : Prog A) (handler : JsError -> Prog A)
    (h : list Req) :
  run w (try_catch p handler) h =
  match run w p h with
  | (Ok a, h') => (Ok a, h')
  | (Err e, h') => run w (handler e) h'
  end.
Proof.
  revert h. induction p as [a | e | r k IH]; intros h; simpl; auto.
Qed.

Lemma run_mbind {A B : Type} (w : World) (p : Prog A) (f : A -> Prog B) (h : list Req) :
  run w (p ≫= f) h =
  match run w p h with
  | (Ok a, h') => run w (f a) h'
  | (Err e, h') => (Err e, h')
  end.
Proof. apply run_bind. Qed.

Lemma run_eval {A : Type} (w : World) (r : Result A) (h : list Req) :
  run w (eval r) h = (r, h).
Proof. destruct r; reflexivity. Qed.

(** A run only ever adds requests to the history. *)
Lemma run_extends {A : Type} (w : World) (p : Prog A) (h : list Req) :
  exists t, (run w p h).2 = h ++ t.
Proof.
  revert h. induction p as [a | e | r k IH]; intros h; simpl.
  - exists []. by rewrite app_nil_r.
  - exists []. by rewrite app_nil_r.
  - destruct (IH (w r h) (h ++ [r])) as [t Ht].
    exists (r :: t). rewrite Ht. by rewrite <- app_assoc.
Qed.

(** ** The clients, one request each *)

Lemma run_getTokenInfoFromSolscan (host : Host) (w : World) (tokenAddress : string)
    (h : list Req) :
  run w (getTokenInfoFromSolscan host tokenAddress) h =
  match (w (tokenInfo_request host tokenAddress) h : Result JsVal)
          ≫= (fun data => js_get host data "data") with
  | Ok tokenInfo => (Ok tokenInfo, h ++ [tokenInfo_request host tokenAddress])
  | Err e =>
      (Err (Error_new "Failed to fetch token info."),
       h ++ [tokenInfo_request host tokenAddress;
             LoggerError ("Error fetching token info from Solscan: " +:+ message e)])
  end.
Proof.
  unfold getTokenInfoFromSolscan, tokenInfo_request. cbn.
  destruct (w _ h) as [data | e]; cbn.
  - destruct (js_get host data "data"); cbn; [done |].
    by rewrite <- app_assoc.
  - by rewrite <- app_assoc.
Qed.

Lemma run_getTokenBalance (host : Host) (w : World) (address tokenAddress : string)
    (h : list Req) :
  run w (getTokenBalance host address tokenAddress) h =
  let failed (e : JsError) (t : list Req) :=
    (Err (Error_new "Failed to fetch token balance."),
     h ++ t ++ [LoggerError ("Error fetching token balance: " +:+ message e)]) in
  match PublicKey_new host address with
  | Err e => failed e []
  | Ok owner =>
      match PublicKey_new host tokenAddress with
      | Err e => failed e []
      | Ok mint =>
          let req := GetTokenAccountsByOwner (connection host) owner mint in
          match (w req h : Result TokenAccounts) ≫= first_uiAmount host with
          | Ok uiAmount => (Ok (js_or uiAmount (JNum 0)), h ++ [req])
          | Err e => failed e [req]
          end
      end
  end.
Proof.
  unfold getTokenBalance.
  destruct (PublicKey_new host address) as [owner | e]; cbn; [| done].
  destruct (PublicKey_new host tokenAddress) as [mint | e]; cbn; [| done].
  destruct (w _ h) as [accounts | e]; cbn.
  - destruct (first_uiAmount host accounts); cbn; [done |].
    by rewrite <- app_assoc.
  - by rewrite <- app_assoc.
Qed.

Lemma run_getCryptoPrices (host : Host) (w : World) (h : list Req) :
  run w (getCryptoPrices host) h =
  match (w (prices_request host) h : Result JsVal) ≫= collect_prices host with
  | Ok prices => (Ok prices, h ++ [prices_request host])
  | Err e =>
      (Err (Error_new "Failed to fetch crypto prices."),
       h ++ [prices_request host;
             LoggerError ("Error fetching crypto prices: " +:+ message e)])
  end.
Proof.
  unfold getCryptoPrices, prices_request. cbn.
  destruct (w _ h) as [data | e]; cbn.
  - destruct (collect_prices host data); cbn; [done |].
    by rewrite <- app_assoc.
  - by rewrite <- app_assoc.
Qed.

Lemma run_getSolanaGasFee (host : Host) (w : World) (h : list Req) :
  run w (getSolanaGasFee host) h =
  match w (GetRecentBlockhash (connection host)) h : Result BlockhashInfo with
  | Ok info =>
      (Ok (lamportsPerSignature (feeCalculator info) / 1000000000)%float,
       h ++ [GetRecentBlockhash (connection host)])
  | Err e =>
      (Err (Error_new "Failed to get Solana gas fee."),
       h ++ [GetRecentBlockhash (connection host);
             LoggerError ("Error fetching gas fee: " +:+ message e)])
  end.
Proof.
  unfold getSolanaGasFee. cbn.
  destruct (w _ h) as [info | e]; cbn; [done |].
  by rewrite <- app_assoc.
Qed.

(** ** The blockchain client *)

(** C4: for a wallet address and a mint that both parse, when the RPC
    lookup succeeds and finds no token account, [getTokenBalance] returns
    0 and raises nothing; the lookup is the only request it makes. *)
Theorem getTokenBalance_no_account (host : Host) (w : World) (h : list Req)
    (address tokenAddress : string) (owner mint : PublicKey) (accounts : TokenAccounts) :
  PublicKey_new host address = Ok owner ->
  PublicKey_new host tokenAddress = Ok mint ->
  w (GetTokenAccountsByOwner (connection host) owner mint) h = Ok accounts ->
  value accounts = [] ->
  run w (getTokenBalance host address tokenAddress) h =
  (Ok (JNum 0), h ++ [GetTokenAccountsByOwner (connection host) owner mint]).
Proof.
  intros Howner Hmint Hrpc Hnone.
  unfold getTokenBalance. rewrite Howner, Hmint. cbn.
  rewrite Hrpc. cbn.
  unfold first_uiAmount. rewrite Hnone. reflexivity.
Qed.

Lemma getTokenBalance_no_account_witness :
  run (Sample.world Sample.up)
      (getTokenBalance Sample.host Sample.wallet Sample.mint) [] =
  (Ok (JNum 0),
   [] ++ [GetTokenAccountsByOwner (connection Sample.host)
            Sample.wallet_key Sample.mint_key]).
Proof.
  apply (getTokenBalance_no_account Sample.host (Sample.world Sample.up) []
           Sample.wallet Sample.mint Sample.wallet_key Sample.mint_key {| value := [] |});
    vm_compute; reflexivity.
Defined.

(** C5, as stated, fails: with 5000 lamports per signature the function
    returns 5000 / 1000000000, not 5000. *)
Lemma fee_in_lamports_fails : ~ fee_in_lamports.
Proof.
  intros Hclaim.
  specialize (Hclaim Sample.host (Sample.world Sample.up) []
                {| blockhash := "EkSnNWid2cvwEVnVx9aBqawnmiCNiDgp3gUdkDPTKN1N";
                   feeCalculator := {| lamportsPerSignature := 5000 |} |} eq_refl).
  apply (f_equal (fun r => match r with
                           | Ok x => (x =? 5000)%float
                           | Err _ => false
                           end)) in Hclaim.
  vm_compute in Hclaim. discriminate.
Qed.

(** C5, amended: [getSolanaGasFee] makes one RPC call; when it succeeds
    the result is the reported lamports per signature divided by
    1000000000 (the fee in SOL, the unit [/gas] prints after it); when it
    fails the cause's message is logged and the error is the generic
    "Failed to get Solana gas fee.".  Nothing else makes it fail. *)
Theorem getSolanaGasFee_in_SOL (host : Host) (w : World) (h : list Req) :
  match w (GetRecentBlockhash (connection host)) h : Result BlockhashInfo with
  | Ok info =>
      let fee := (lamportsPerSignature (feeCalculator info) / 1000000000)%float in
      run w (getSolanaGasFee host) h =
        (Ok fee, h ++ [GetRecentBlockhash (connection host)]) /\
      run w (gas_command host) h =
        (Ok tt,
         h ++ [GetRecentBlockhash (connection host);
               CtxReply ("⛽ **Solana Gas Fee**: " +:+ Number_toString host fee +:+
                         " SOL per transaction")])
  | Err e =>
      run w (getSolanaGasFee host) h =
        (Err (Error_new "Failed to get Solana gas fee."),
         h ++ [GetRecentBlockhash (connection host);
               LoggerError ("Error fetching gas fee: " +:+ message e)])
  end.
Proof.
  unfold gas_command. rewrite run_try_catch, run_mbind, run_getSolanaGasFee.
  destruct (w (GetRecentBlockhash (connection host)) h) as [info | e]; cbn.
  - split; [reflexivity |]. by rewrite <- app_assoc.
  - reflexivity.
Qed.

(** ** The analysis orchestrator *)

(** C2, as stated, fails: when the metadata service is down, the error of
    [analyzeToken] has no cause attached. *)
Lemma failure_wraps_cause_fails : ~ failure_wraps_cause.
Proof.
  intros Hclaim.
  destruct (Hclaim Sample.host (Sample.world Sample.down) Sample.wallet Sample.mint [] _
              (Error_new "Failed to fetch token info.") eq_refl)
    as (e' & Hrun & Hcause).
  vm_compute in Hrun. injection Hrun as <-. discriminate Hcause.
Qed.

Lemma run_analyzeToken (host : Host) (w : World) (address tokenAddress : string)
    (h : list Req) :
  run w (analyzeToken host address tokenAddress) h =
  match sub_calls host w address tokenAddress h with
  | (Ok analysis, h') => (Ok analysis, h')
  | (Err e, h') =>
      (Err (MkError "Failed to analyze token." None),
       h' ++ [LoggerError ("Error during analysis: " +:+ message e)])
  end.
Proof.
  unfold analyzeToken, sub_calls.
  rewrite run_try_catch, run_mbind.
  destruct (run w (getTokenInfoFromSolscan host tokenAddress) h) as [[tokenInfo | e] h1];
    [| reflexivity].
  rewrite run_mbind.
  destruct (run w (getTokenBalance host address tokenAddress) h1) as [[balance | e] h2];
    [| reflexivity].
  rewrite run_mbind.
  destruct (run w (getCryptoPrices host) h2) as [[prices | e] h3]; [| reflexivity].
  rewrite run_mbind.
  destruct (run w (getSolanaGasFee host) h3) as [[gasFee | e] h4]; reflexivity.
Qed.

(** The service calls of the sub-calls made, whatever their outcome. *)
Lemma sub_calls_requests (host : Host) (w : World) (address tokenAddress : string)
    (h : list Req) :
  exists t,
    (sub_calls host w address tokenAddress h).2 = h ++ t /\
    (List.filter is_service_call t `prefix_of` analysis_requests host address tokenAddress) /\
    (forall analysis,
        (sub_calls host w address tokenAddress h).1 = Ok analysis ->
        List.filter is_service_call t = analysis_requests host address tokenAddress /\
        length (List.filter is_service_call t) = 4%nat).
Proof.
  unfold sub_calls, analysis_requests.
  rewrite run_getTokenInfoFromSolscan.
  destruct (_ ≫= _) as [tokenInfo | e1]; cbn [fst snd];
    [| eexists; split; [reflexivity |]; split;
       [apply prefix_cons, prefix_nil | discriminate]].
  rewrite run_getTokenBalance.
  destruct (PublicKey_new host address) as [owner | e2]; cbn [fst snd];
    [| eexists; rewrite <- !app_assoc; split; [reflexivity |]; split;
       [apply prefix_cons, prefix_nil | discriminate]].
  destruct (PublicKey_new host tokenAddress) as [mint | e2]; cbn [fst snd];
    [| eexists; rewrite <- !app_assoc; split; [reflexivity |]; split;
       [apply prefix_cons, prefix_nil | discriminate]].
  destruct (_ ≫= _) as [uiAmount | e2]; cbn [fst snd];
    [| eexists; rewrite <- !app_assoc; split; [reflexivity |]; split;
       [do 2 apply prefix_cons; apply prefix_nil | discriminate]].
  rewrite run_getCryptoPrices.
  destruct (_ ≫= _) as [prices | e3]; cbn [fst snd];
    [| eexists; rewrite <- !app_assoc; split; [reflexivity |]; split;
       [do 3 apply prefix_cons; apply prefix_nil | discriminate]].
  rewrite run_getSolanaGasFee.
  destruct (w (GetRecentBlockhash (connection host)) _) as [info | e4]; cbn [fst snd];
    eexists; rewrite <- !app_assoc; (split; [reflexivity |]); split;
    try (do 4 apply prefix_cons; apply prefix_nil); try discriminate.
  intros analysis _. split; reflexivity.
Qed.

(** C2, amended: [analyzeToken] makes the four sub-calls one after the
    other in the order metadata, balance, prices, fee.  When all succeed
    the result holds the four values, and the service calls made are the
    four of [analysis_requests], in that order.  At the first failure the
    remaining sub-calls are not made (the service calls made are a prefix
    of the four), no result is produced, the message of the failing
    sub-call's error is logged once, and the one error raised is the
    generic "Failed to analyze token.", which does not carry the cause. *)
Theorem analyzeToken_all_or_nothing (host : Host) (w : World)
    (address tokenAddress : string) (h : list Req) :
  run w (analyzeToken host address tokenAddress) h =
    match sub_calls host w address tokenAddress h with
    | (Ok analysis, h') => (Ok analysis, h')
    | (Err e, h') =>
        (Err (MkError "Failed to analyze token." None),
         h' ++ [LoggerError ("Error during analysis: " +:+ message e)])
    end /\
  exists t,
    (run w (analyzeToken host address tokenAddress) h).2 = h ++ t /\
    (List.filter is_service_call t `prefix_of` analysis_requests host address tokenAddress) /\
    (forall analysis,
        (run w (analyzeToken host address tokenAddress) h).1 = Ok analysis ->
        List.filter is_service_call t = analysis_requests host address tokenAddress /\
        length (List.filter is_service_call t) = 4%nat).
Proof.
  split; [apply run_analyzeToken |].
  destruct (sub_calls_requests host w address tokenAddress h) as (t & Ht & Hprefix & Hall).
  rewrite run_analyzeToken.
  destruct (sub_calls host w address tokenAddress h) as [[a | e] h']; cbn [fst snd] in *.
  - exists t. split; [exact Ht |]. split; [exact Hprefix |]. exact Hall.
  - exists (t ++ [LoggerError ("Error during analysis: " +:+ message e)]).
    rewrite Ht, <- app_assoc. split; [reflexivity |].
    rewrite List.filter_app. cbn. rewrite app_nil_r.
    split; [exact Hprefix | discriminate].
Qed.

(** ** Malformed addresses *)

(** With the wallet address [bad] the analysis first fetches the token
    metadata, and the error it ends with is not the parser's. *)
Example analyzeToken_bad_address :
  run (Sample.world Sample.up) (analyzeToken Sample.host "bad" Sample.mint) [] =
  (Err (Error_new "Failed to analyze token."),
   [tokenInfo_request Sample.host Sample.mint;
    LoggerError "Error fetching token balance: Invalid public key input";
    LoggerError "Error during analysis: Failed to fetch token balance."]).
Proof. reflexivity. Qed.

(** C3, as stated, fails. *)
Lemma rejects_malformed_address_fails : ~ rejects_malformed_address.
Proof.
  intros Hclaim.
  destruct (Hclaim Sample.host (Sample.world Sample.up) [] "bad"
              (Error_new "Invalid public key input") eq_refl)
    as (_ & _ & Hanalyze).
  destruct (Hanalyze Sample.mint) as (t & Hrun & Hcalls).
  rewrite analyzeToken_bad_address in Hrun. discriminate Hrun.
Qed.

(** C3, amended: let [address] be malformed.  The [/balance] handler
    replies with the parser's error message and calls no service.
    [getTokenBalance] calls no service either, with [address] as the
    wallet or as the mint, but the error it raises is the generic
    "Failed to fetch token balance."; the parser's message is only logged.
    [analyzeToken] fails with the generic "Failed to analyze token.", and
    by then it has made exactly one service call, the token-metadata
    request, which is sent whether or not the addresses parse. *)
Theorem malformed_address (host : Host) (w : World) (h : list Req)
    (address : string) (e : JsError) :
  PublicKey_new host address = Err e ->
  (forall text rest, command_args text = address :: rest ->
      run w (balance_command host text) h =
      (Ok tt, h ++ [CtxReply ("❌ Error: " +:+ message e)])) /\
  (forall tokenAddress,
      run w (getTokenBalance host address tokenAddress) h =
      (Err (Error_new "Failed to fetch token balance."),
       h ++ [LoggerError ("Error fetching token balance: " +:+ message e)])) /\
  (forall wallet, exists e',
      run w (getTokenBalance host wallet address) h =
      (Err (Error_new "Failed to fetch token balance."),
       h ++ [LoggerError ("Error fetching token balance: " +:+ message e')])) /\
  (forall tokenAddress, exists t,
      run w (analyzeToken host address tokenAddress) h =
        (Err (Error_new "Failed to analyze token."), h ++ t) /\
      List.filter is_service_call t = [tokenInfo_request host tokenAddress]) /\
  (forall wallet, exists t,
      run w (analyzeToken host wallet address) h =
        (Err (Error_new "Failed to analyze token."), h ++ t) /\
      List.filter is_service_call t = [tokenInfo_request host address]).
Proof.
  intros Hbad.
  assert (Hwallet : forall tokenAddress h0,
             run w (getTokenBalance host address tokenAddress) h0 =
             (Err (Error_new "Failed to fetch token balance."),
              h0 ++ [LoggerError ("Error fetching token balance: " +:+ message e)])).
  { intros tokenAddress h0. rewrite run_getTokenBalance, Hbad. reflexivity. }
  assert (Hmint : forall wallet, exists e', forall h0,
             run w (getTokenBalance host wallet address) h0 =
             (Err (Error_new "Failed to fetch token balance."),
              h0 ++ [LoggerError ("Error fetching token balance: " +:+ message e')])).
  { intros wallet.
    destruct (PublicKey_new host wallet) as [owner | e0] eqn:Hwallet'.
    - exists e. intros h0. rewrite run_getTokenBalance, Hwallet', Hbad. reflexivity.
    - exists e0. intros h0. rewrite run_getTokenBalance, Hwallet'. reflexivity. }
  assert (Hanalyze : forall wallet tokenAddress,
             (exists e', forall h0,
                 run w (getTokenBalance host wallet tokenAddress) h0 =
                 (Err (Error_new "Failed to fetch token balance."),
                  h0 ++ [LoggerError ("Error fetching token balance: " +:+ message e')])) ->
             exists t,
               run w (analyzeToken host wallet tokenAddress) h =
                 (Err (Error_new "Failed to analyze token."), h ++ t) /\
               List.filter is_service_call t = [tokenInfo_request host tokenAddress]).
  { intros wallet tokenAddress [e' Hbalance].
    rewrite run_analyzeToken. unfold sub_calls.
    rewrite run_getTokenInfoFromSolscan.
    destruct (_ ≫= _) as [tokenInfo | e1].
    - rewrite Hbalance. eexists. rewrite <- !app_assoc. split; reflexivity.
    - eexists. rewrite <- !app_assoc. split; reflexivity. }
  split; [| split; [| split; [| split]]].
  - intros text rest Hargs. unfold balance_command. rewrite Hargs. cbn.
    rewrite Hbad. cbn. reflexivity.
  - intros tokenAddress. apply Hwallet.
  - intros wallet. destruct (Hmint wallet) as [e' He']. exists e'. apply He'.
  - intros tokenAddress. apply Hanalyze. exists e. intros h0. apply Hwallet.
  - intros wallet. apply Hanalyze, Hmint.
Qed.

Lemma malformed_address_witness :
  run (Sample.world Sample.up) (getTokenBalance Sample.host "bad" Sample.mint) [] =
  (Err (Error_new "Failed to fetch token balance."),
   [LoggerError "Error fetching token balance: Invalid public key input"]).
Proof.
  destruct (malformed_address Sample.host (Sample.world Sample.up) [] "bad"
              (Error_new "Invalid public key input") eq_refl)
    as (_ & Hbalance & _).
  apply Hbalance.
Defined.

(** ** The command handlers *)

(** A [try] block whose [catch] replies with the error ends normally. *)
Lemma run_try_catch_reply (w : World) (body : Prog unit) (h : list Req) :
  run w (try_catch body reply_error) h =
  match run w body h with
  | (Ok _, h') => (Ok tt, h')
  | (Err e, h') => (Ok tt, h' ++ [CtxReply ("❌ Error: " +:+ message e)])
  end.
Proof.
  rewrite run_try_catch.
  destruct (run w body h) as [[[] | e] h']; reflexivity.
Qed.

Lemma try_catch_reply_returns (w : World) (body : Prog unit) (h : list Req) :
  exists t, run w (try_catch body reply_error) h = (Ok tt, h ++ t).
Proof.
  rewrite run_try_catch_reply.
  destruct (run_extends w body h) as [t Ht].
  destruct (run w body h) as [[[] | e] h']; cbn in Ht; subst h'.
  - by exists t.
  - exists (t ++ [CtxReply ("❌ Error: " +:+ message e)]). by rewrite app_assoc.
Qed.

Lemma handle_returns (host : Host) (w : World) (c : Command) (text : string)
    (h : list Req) :
  exists t, run w (handle host c text) h = (Ok tt, h ++ t).
Proof.
  destruct c; cbn [handle].
  - unfold check_command.
    destruct (command_args text) as [| tokenAddress [| address rest]];
      cbn [length Nat.ltb Nat.leb];
      first [apply try_catch_reply_returns | by eexists].
  - unfold balance_command.
    destruct (command_args text) as [| address rest];
      cbn [length Nat.ltb Nat.leb];
      first [apply try_catch_reply_returns | by eexists].
  - apply try_catch_reply_returns.
  - apply try_catch_reply_returns.
  - by eexists.
Qed.

Lemma serve_returns (host : Host) (w : World) (updates : list (Command * string))
    (h : list Req) :
  exists t, run w (serve host updates) h = (Ok tt, h ++ t).
Proof.
  revert h. induction updates as [| [c text] rest IH]; intros h; cbn [serve].
  - exists []. by rewrite app_nil_r.
  - rewrite run_mbind.
    destruct (handle_returns host w c text h) as [t Ht]. rewrite Ht.
    destruct (IH (h ++ t)) as [t' Ht']. rewrite Ht'.
    exists (t ++ t'). by rewrite app_assoc.
Qed.

(** C6: in every world no handler lets an error escape, so the bot goes
    on to the next command whatever happened to the previous one; and
    each error raised by the call a handler makes (the analysis and the
    formatting of its report, the address parser and the balance lookup,
    the price fetch and its report, the fee query) is answered by a reply
    that carries the error's message. *)
Theorem handlers_catch_errors (host : Host) (w : World) :
  (forall c text h, exists t, run w (handle host c text) h = (Ok tt, h ++ t)) /\
  (forall updates h, exists t, run w (serve host updates) h = (Ok tt, h ++ t)) /\
  (forall c text rest h,
      run w (serve host ((c, text) :: rest)) h =
      run w (serve host rest) (run w (handle host c text) h).2) /\
  (forall text tokenAddress address rest h,
      command_args text = tokenAddress :: address :: rest ->
      run w (handle host CmdCheck text) h =
      match run w (analyzeToken host address tokenAddress)
              (h ++ [CtxReply "🔍 Analyzing the token. Please wait..."]) with
      | (Err e, h') => (Ok tt, h' ++ [CtxReply ("❌ Error: " +:+ message e)])
      | (Ok analysis, h') =>
          match check_report host analysis with
          | Err e => (Ok tt, h' ++ [CtxReply ("❌ Error: " +:+ message e)])
          | Ok report => (Ok tt, h' ++ [CtxReply report])
          end
      end) /\
  (forall text address rest h,
      command_args text = address :: rest ->
      run w (handle host CmdBalance text) h =
      match PublicKey_new host address with
      | Err e => (Ok tt, h ++ [CtxReply ("❌ Error: " +:+ message e)])
      | Ok owner =>
          match w (GetBalance (connection host) owner) h : Result float with
          | Err e =>
              (Ok tt, h ++ [GetBalance (connection host) owner;
                            CtxReply ("❌ Error: " +:+ message e)])
          | Ok lamports =>
              (Ok tt, h ++ [GetBalance (connection host) owner;
                            CtxReply ("📊 **Solana Balance**: " +:+
                                      Number_toString host (lamports / 1000000000)%float +:+
                                      " SOL")])
          end
      end) /\
  (forall text h,
      run w (handle host CmdPrices text) h =
      match run w (getCryptoPrices host) h with
      | (Err e, h') => (Ok tt, h' ++ [CtxReply ("❌ Error: " +:+ message e)])
      | (Ok prices, h') =>
          match prices_report host prices with
          | Err e => (Ok tt, h' ++ [CtxReply ("❌ Error: " +:+ message e)])
          | Ok report => (Ok tt, h' ++ [CtxReply report])
          end
      end) /\
  (forall text h,
      run w (handle host CmdGas text) h =
      match run w (getSolanaGasFee host) h with
      | (Err e, h') => (Ok tt, h' ++ [CtxReply ("❌ Error: " +:+ message e)])
      | (Ok gasFee, h') =>
          (Ok tt, h' ++ [CtxReply ("⛽ **Solana Gas Fee**: " +:+
                                   Number_toString host gasFee +:+
                                   " SOL per transaction")])
      end).
Proof.
  split; [intros; apply handle_returns |].
  split; [intros; apply serve_returns |].
  split.
  { intros c text rest h. cbn [serve]. rewrite run_mbind.
    destruct (handle_returns host w c text h) as [t Ht]. by rewrite Ht. }
  split.
  { intros text tokenAddress address rest h Hargs.
    cbn [handle]. unfold check_command. rewrite Hargs. cbn [length Nat.ltb Nat.leb].
    rewrite run_try_catch_reply. cbn [ctx_reply mbind Prog_bind bind run].
    rewrite run_mbind.
    destruct (run w (analyzeToken host address tokenAddress) _) as [[analysis | e] h'];
      [| reflexivity].
    rewrite run_mbind, run_eval.
    destruct (check_report host analysis) as [report | e]; reflexivity. }
  split.
  { intros text address rest h Hargs.
    cbn [handle]. unfold balance_command. rewrite Hargs. cbn [length Nat.ltb Nat.leb].
    rewrite run_try_catch_reply, run_mbind, run_eval.
    destruct (PublicKey_new host address) as [owner | e]; [| reflexivity].
    cbn. destruct (w (GetBalance (connection host) owner) h) as [lamports | e]; cbn.
    - by rewrite <- app_assoc.
    - by rewrite <- app_assoc. }
  split.
  { intros text h. cbn [handle]. unfold prices_command.
    rewrite run_try_catch_reply, run_mbind.
    destruct (run w (getCryptoPrices host) h) as [[prices | e] h']; [| reflexivity].
    rewrite run_mbind, run_eval.
    destruct (prices_report host prices) as [report | e]; reflexivity. }
  intros text h. cbn [handle]. unfold gas_command.
  rewrite run_try_catch_reply, run_mbind.
  destruct (run w (getSolanaGasFee host) h) as [[gasFee | e] h']; reflexivity.
Qed.

(** The scenario of the specification: [/balance] with a string that is
    no address is answered by an error, and the [/help] that follows is
    served. *)
Lemma handlers_catch_errors_witness :
  run (Sample.world Sample.up)
      (serve Sample.host [(CmdBalance, "/balance not-an-address"); (CmdHelp, "/help")]) [] =
  (Ok tt, [CtxReply "❌ Error: Non-base58 character"; CtxReply help_text]).
Proof.
  destruct (handlers_catch_errors Sample.host (Sample.world Sample.up))
    as (_ & _ & Hserve & _ & Hbalance & _).
  rewrite Hserve.
  rewrite (Hbalance "/balance not-an-address" "not-an-address" [] [] eq_refl).
  reflexivity.
Defined.

(** ** The price client *)

(** C7: when the price request fails (an HTTP 500 rejects the promise),
    or when the batch it returns cannot be processed to the end, no price
    is kept: [getCryptoPrices] logs the cause and raises the one error
    "Failed to fetch crypto prices.", and the only reply of [/prices] is
    that error message. *)
Theorem prices_failure_discards_batch (host : Host) (w : World) (h : list Req)
    (e : JsError) :
  (w (prices_request host) h : Result JsVal) ≫= collect_prices host = Err e ->
  run w (getCryptoPrices host) h =
    (Err (Error_new "Failed to fetch crypto prices."),
     h ++ [prices_request host;
           LoggerError ("Error fetching crypto prices: " +:+ message e)]) /\
  run w (prices_command host) h =
    (Ok tt,
     h ++ [prices_request host;
           LoggerError ("Error fetching crypto prices: " +:+ message e);
           CtxReply "❌ Error: Failed to fetch crypto prices."]).
Proof.
  intros Hfail.
  assert (Hprices : run w (getCryptoPrices host) h =
                    (Err (Error_new "Failed to fetch crypto prices."),
                     h ++ [prices_request host;
                           LoggerError ("Error fetching crypto prices: " +:+ message e)])).
  { rewrite run_getCryptoPrices, Hfail. reflexivity. }
  split; [exact Hprices |].
  unfold prices_command.
  rewrite run_try_catch_reply, run_mbind, Hprices.
  by rewrite <- app_assoc.
Qed.

Lemma prices_failure_discards_batch_witness :
  run (Sample.world Sample.down) (prices_command Sample.host) [] =
  (Ok tt,
   [prices_request Sample.host;
    LoggerError "Error fetching crypto prices: Request failed with status code 500";
    CtxReply "❌ Error: Failed to fetch crypto prices."]).
Proof.
  apply (prices_failure_discards_batch Sample.host (Sample.world Sample.down) []
           (Error_new "Request failed with status code 500")).
  reflexivity.
Defined.

(** A batch whose second entry is [null]: the price read from the first
    entry is dropped with the rest. *)
Example prices_partial_batch :
  let w := Sample.world
             {| Sample.http := fun _ _ => Ok (JArr [Sample.coin "solana" 100; JNull]);
                Sample.token_accounts := Sample.token_accounts Sample.up;
                Sample.lamports := Sample.lamports Sample.up;
                Sample.recent_blockhash := Sample.recent_blockhash Sample.up;
                Sample.launched := Sample.launched Sample.up |} in
  run w (prices_command Sample.host) [] =
  (Ok tt,
   [prices_request Sample.host;
    LoggerError "Error fetching crypto prices: Cannot read properties of null (reading 'id')";
    CtxReply "❌ Error: Failed to fetch crypto prices."]).
Proof. reflexivity. Qed.

(** ** The price shown by [/check] *)

Lemma obj_set_own_other (o : Obj) (key k : string) (v : JsVal) :
  key ≠ k -> own (obj_set o key v) !! k = own o !! k.
Proof.
  intros Hne. unfold obj_set, obj_set_proto, obj_define.
  repeat case_match; cbn; try reflexivity; by rewrite lookup_insert_ne.
Qed.

Lemma obj_set_own_same (o : Obj) (k : string) (v : JsVal) :
  k ≠ "__proto__" -> own (obj_set o k v) !! k = Some v.
Proof.
  intros Hne. unfold obj_set. rewrite decide_False by exact Hne.
  cbn. apply lookup_insert_eq.
Qed.

Lemma obj_get_own (o : Obj) (k : string) (v : JsVal) :
  own o !! k = Some v -> obj_get o k = v.
Proof. intros Hown. unfold obj_get. by rewrite Hown. Qed.

Lemma set_price_inv (host : Host) (o o' : Obj) (coin : JsVal) :
  set_price host o coin = Ok o' ->
  exists key price,
    coin_key host coin = Ok key /\
    js_get host coin "current_price" = Ok price /\
    o' = obj_set o key price.
Proof.
  unfold set_price, coin_key. unfold_monad.
  destruct (js_get host coin "id") as [id | e]; [| discriminate].
  destruct (js_get host coin "current_price") as [price | e]; [| discriminate].
  destruct (js_ToString host id) as [key | e]; [| discriminate].
  intros [= <-]. by exists key, price.
Qed.

Lemma forEach_set_price_app (host : Host) (before after : list JsVal) (o : Obj) :
  forEach_set_price host (before ++ after) o =
  forEach_set_price host before o ≫= forEach_set_price host after.
Proof.
  revert o. induction before as [| coin before IH]; intros o; cbn; [done |].
  unfold_monad. destruct (set_price host o coin) as [o' | e]; [apply IH | done].
Qed.

(** Coins filed under other keys leave a price in place. *)
Lemma forEach_set_price_keeps (host : Host) (after : list JsVal) (o o' : Obj)
    (k : string) (v : JsVal) :
  Forall (fun coin => coin_key host coin ≠ Ok k) after ->
  own o !! k = Some v ->
  forEach_set_price host after o = Ok o' ->
  own o' !! k = Some v.
Proof.
  intros Hafter. revert o.
  induction Hafter as [| coin after Hcoin _ IH]; intros o Hown; cbn.
  - by intros [= <-].
  - unfold_monad. destruct (set_price host o coin) as [o1 | e] eqn:Hset; [| discriminate].
    apply IH.
    destruct (set_price_inv host o o1 coin Hset) as (key & price & Hkey & _ & ->).
    rewrite obj_set_own_other; [exact Hown |].
    intros ->. by apply Hcoin.
Qed.

(** After a batch, [prices.solana] is the price of the last coin filed
    under [solana] (and likewise for any key but [__proto__]). *)
Lemma collect_prices_last (host : Host) (before after : list JsVal) (coin : JsVal)
    (k : string) (prices : Obj) :
  k ≠ "__proto__" ->
  coin_key host coin = Ok k ->
  Forall (fun coin' => coin_key host coin' ≠ Ok k) after ->
  collect_prices host (JArr (before ++ coin :: after)) = Ok prices ->
  js_get host coin "current_price" = Ok (obj_get prices k).
Proof.
  intros Hk Hkey Hafter. cbn [collect_prices].
  rewrite forEach_set_price_app. unfold_monad.
  destruct (forEach_set_price host before obj_empty) as [o | e]; [| discriminate].
  cbn [forEach_set_price]. unfold_monad.
  destruct (set_price host o coin) as [o1 | e] eqn:Hset; [| discriminate].
  intros Hrest.
  destruct (set_price_inv host o o1 coin Hset) as (key & price & Hkey' & Hprice & ->).
  rewrite Hkey in Hkey'. injection Hkey' as <-.
  rewrite Hprice. f_equal. symmetry. apply obj_get_own.
  eapply forEach_set_price_keeps; [exact Hafter | | exact Hrest].
  by apply obj_set_own_same.
Qed.

(** The prices of a successful analysis come from the one fixed request. *)
Lemma sub_calls_prices (host : Host) (w : World) (address tokenAddress : string)
    (h h' : list Req) (analysis : Analysis) :
  sub_calls host w address tokenAddress h = (Ok analysis, h') ->
  exists h0 data,
    (w (prices_request host) h0 : Result JsVal) = Ok data /\
    collect_prices host data = Ok (prices analysis).
Proof.
  unfold sub_calls.
  destruct (run w (getTokenInfoFromSolscan host tokenAddress) h) as [[tokenInfo | e] h1];
    [| discriminate].
  destruct (run w (getTokenBalance host address tokenAddress) h1) as [[balance | e] h2];
    [| discriminate].
  rewrite run_getCryptoPrices.
  destruct (w (prices_request host) h2) as [data | e] eqn:Hdata;
    cbn [mbind Result_bind]; [| discriminate].
  destruct (collect_prices host data) as [prices | e] eqn:Hcollect; [| discriminate].
  destruct (run w (getSolanaGasFee host) _) as [[gasFee | e] h4]; [| discriminate].
  intros [= <- <-]. by exists h2, data.
Qed.

(** C9: when [/check] succeeds, the line labelled Token Price shows
    [prices.solana], whatever token was asked about.  The prices are the
    answer to the one fixed request for [solana,bitcoin,ethereum] in
    [usd], which does not mention the token; the service calls of the
    command are the four of the analysis and no other, so no price of the
    token itself is asked for; and [prices.solana] is the current price of
    the last coin of the batch whose id is [solana]. *)
Theorem check_reports_solana_price (host : Host) (w : World) (h h' : list Req)
    (text tokenAddress address : string) (rest : list string) (analysis : Analysis)
    (report : string) :
  command_args text = tokenAddress :: address :: rest ->
  run w (analyzeToken host address tokenAddress)
      (h ++ [CtxReply "🔍 Analyzing the token. Please wait..."]) = (Ok analysis, h') ->
  check_report host analysis = Ok report ->
  run w (check_command host text) h = (Ok tt, h' ++ [CtxReply report]) /\
  (exists name symbol price balance symbol',
      js_ToString host (obj_get (prices analysis) "solana") = Ok price /\
      report =
        nl +:+
        "            🧾 **Token Analysis:**" +:+ nl +:+
        "            - **Token Name**: " +:+ name +:+ nl +:+
        "            - **Token Symbol**: " +:+ symbol +:+ nl +:+
        "            - **Token Price**: $" +:+ price +:+ nl +:+
        "            - **Your Balance**: " +:+ balance +:+ " " +:+ symbol' +:+ nl +:+
        "            - **Gas Fee**: " +:+ Number_toString host (gasFee analysis) +:+ " SOL" +:+ nl +:+
        "        ") /\
  (exists h0 data,
      (w (prices_request host) h0 : Result JsVal) = Ok data /\
      collect_prices host data = Ok (prices analysis)) /\
  (exists t,
      h' = h ++ CtxReply "🔍 Analyzing the token. Please wait..." :: t /\
      List.filter is_service_call t = analysis_requests host address tokenAddress) /\
  (forall before coin after,
      collect_prices host (JArr (before ++ coin :: after)) = Ok (prices analysis) ->
      coin_key host coin = Ok "solana" ->
      Forall (fun coin' => coin_key host coin' ≠ Ok "solana") after ->
      js_get host coin "current_price" = Ok (obj_get (prices analysis) "solana")).
Proof.
  intros Hargs Hrun Hreport.
  split; [| split; [| split; [| split]]].
  - unfold check_command. rewrite Hargs. cbn [length Nat.ltb Nat.leb].
    rewrite run_try_catch_reply. cbn [ctx_reply mbind Prog_bind bind run].
    rewrite run_mbind, Hrun, run_mbind, run_eval, Hreport. reflexivity.
  - revert Hreport. unfold check_report. unfold_monad.
    destruct (js_get host (tokenInfo analysis) "name") as [name |]; [| discriminate].
    destruct (js_ToString host name) as [name_s |]; [| discriminate].
    destruct (js_get host (tokenInfo analysis) "symbol") as [symbol |]; [| discriminate].
    destruct (js_ToString host symbol) as [symbol_s |]; [| discriminate].
    destruct (js_ToString host (obj_get (prices analysis) "solana")) as [price |];
      [| discriminate].
    destruct (js_ToString host (balance analysis)) as [balance_s |]; [| discriminate].
    intros [= <-].
    by exists name_s, symbol_s, price, balance_s, symbol_s.
  - rewrite run_analyzeToken in Hrun.
    destruct (sub_calls host w address tokenAddress _) as [[a | e] h1] eqn:Hsub;
      [| discriminate].
    injection Hrun as -> ->.
    by apply sub_calls_prices in Hsub.
  - rewrite run_analyzeToken in Hrun.
    destruct (sub_calls_requests host w address tokenAddress
                (h ++ [CtxReply "🔍 Analyzing the token. Please wait..."]))
      as (t & Ht & _ & Hall).
    destruct (sub_calls host w address tokenAddress _) as [[a | e] h1]; [| discriminate].
    injection Hrun as -> ->. cbn [fst snd] in *.
    exists t. split; [by rewrite Ht, <- app_assoc |].
    by apply (Hall analysis).
  - intros before coin after Hcollect Hkey Hafter.
    by apply (collect_prices_last host before after coin "solana" (prices analysis)).
Qed.

Lemma check_reports_solana_price_witness :
  run (Sample.world Sample.up)
      (check_command Sample.host ("/check " +:+ Sample.mint +:+ " " +:+ Sample.wallet)) [] =
  (Ok tt,
   ([CtxReply "🔍 Analyzing the token. Please wait..."] ++
    [tokenInfo_request Sample.host Sample.mint;
     GetTokenAccountsByOwner (connection Sample.host) Sample.wallet_key Sample.mint_key;
     prices_request Sample.host;
     GetRecentBlockhash (connection Sample.host)]) ++
   [CtxReply (nl +:+
              "            🧾 **Token Analysis:**" +:+ nl +:+
              "            - **Token Name**: USD Coin" +:+ nl +:+
              "            - **Token Symbol**: USDC" +:+ nl +:+
              "            - **Token Price**: $150.25" +:+ nl +:+
              "            - **Your Balance**: 0 USDC" +:+ nl +:+
              "            - **Gas Fee**: 0.000005 SOL" +:+ nl +:+
              "        ")]).
Proof.
  apply (proj1 (check_reports_solana_price Sample.host (Sample.world Sample.up) []
                  ([CtxReply "🔍 Analyzing the token. Please wait..."] ++
                   [tokenInfo_request Sample.host Sample.mint;
                    GetTokenAccountsByOwner (connection Sample.host)
                      Sample.wallet_key Sample.mint_key;
                    prices_request Sample.host;
                    GetRecentBlockhash (connection Sample.host)])
                  ("/check " +:+ Sample.mint +:+ " " +:+ Sample.wallet)
                  Sample.mint Sample.wallet [] Sample.analysis _
                  ltac:(vm_compute; reflexivity)
                  ltac:(vm_compute; reflexivity)
                  ltac:(vm_compute; reflexivity))).
Defined.

(** ** Command arguments *)

Lemma js_split_nonempty (sep : Ascii.ascii) (s : string) : js_split sep s ≠ [].
Proof.
  destruct s as [| c s]; cbn [js_split]; [done |].
  destruct (Ascii.eqb c sep); [done |].
  destruct (js_split sep s); done.
Qed.

Lemma js_split_length (sep : Ascii.ascii) (s : string) :
  length (js_split sep s) = S (count_char sep s).
Proof.
  induction s as [| c s IH]; cbn [js_split count_char]; [done |].
  destruct (Ascii.eqb c sep); cbn [length Nat.add]; [by rewrite IH |].
  destruct (js_split sep s); cbn [length] in *; [done | exact IH].
Qed.

(** Splitting around one separator: the pieces of the left part, then
    the pieces of the right part. *)
Lemma js_split_app (sep : Ascii.ascii) (a b : string) :
  js_split sep (a +:+ String sep b) = js_split sep a ++ js_split sep b.
Proof.
  induction a as [| c a IH].
  - change ("" +:+ String sep b) with (String sep b).
    cbn [js_split]. by rewrite Ascii.eqb_refl.
  - change (String c a +:+ String sep b) with (String c (a +:+ String sep b)).
    cbn [js_split].
    destruct (Ascii.eqb c sep); [by rewrite IH |].
    rewrite IH.
    pose proof (js_split_nonempty sep a) as Hne.
    destruct (js_split sep a); done.
Qed.

(** C10: the arguments of a command are the pieces of the message text
    between single spaces, the first piece left out, so there are as many
    arguments as there are spaces in the text, and two spaces in a row
    give an empty argument.  The message "/check  X" (two spaces, one
    real argument) passes the check for two arguments, and the empty
    string is what the token metadata is requested for; likewise
    "/balance " hands the empty string to the address parser. *)
Theorem command_args_keep_empty_strings :
  (forall text, command_args text = drop 1 (js_split " " text)) /\
  (forall text, length (command_args text) = count_char " " text) /\
  (forall a b, js_split " " (a +:+ "  " +:+ b) = js_split " " a ++ "" :: js_split " " b) /\
  command_args "/check  X" = [""; "X"] /\
  (forall host,
      check_command host "/check  X" =
      try_catch
        (ctx_reply "🔍 Analyzing the token. Please wait...";;
         analysis ← analyzeToken host "X" "";
         report ← eval (check_report host analysis);
         ctx_reply report)
        reply_error) /\
  (forall host w h, exists t,
      (run w (check_command host "/check  X") h).2 =
      h ++ [CtxReply "🔍 Analyzing the token. Please wait..."; tokenInfo_request host ""] ++ t) /\
  (forall host w h e,
      PublicKey_new host "" = Err e ->
      run w (balance_command host "/balance ") h =
      (Ok tt, h ++ [CtxReply ("❌ Error: " +:+ message e)])).
Proof.
  split; [reflexivity |].
  split.
  { intros text. unfold command_args.
    rewrite length_drop, js_split_length. lia. }
  split.
  { intros a b.
    change (a +:+ "  " +:+ b) with (a +:+ String " " ("" +:+ String " " b)).
    by rewrite !js_split_app. }
  split; [reflexivity |].
  split; [reflexivity |].
  split.
  { intros host w h.
    cbv [check_command command_args js_split drop length Nat.ltb Nat.leb
         Ascii.eqb Bool.eqb].
    unfold analyzeToken, getTokenInfoFromSolscan, tokenInfo_request.
    cbn [ctx_reply axios_get mbind Prog_bind bind try_catch run].
    match goal with
    | |- exists t, (run w ?p ?h0).2 = _ =>
        destruct (run_extends w p h0) as [t Ht]; exists t; rewrite Ht
    end.
    by rewrite <- !app_assoc. }
  intros host w h e Hempty.
  cbv [balance_command command_args js_split drop length Nat.ltb Nat.leb
       Ascii.eqb Bool.eqb].
  rewrite run_try_catch_reply, run_mbind, run_eval, Hempty. reflexivity.
Qed.

(** ** The rate limiter *)

(** Each command that calls a service issues its first service call
    before it suspends for the first time. *)
Lemma first_await_gas (host : Host) :
  first_await (gas_command host) = Some (GetRecentBlockhash (connection host)).
Proof. reflexivity. Qed.

Lemma start_times_replicate {A : Type} (now : Z) (n : nat) (p : Prog A) (r : Req) :
  first_await p = Some r ->
  start_times now (replicate n p) = replicate n (now, r).
Proof.
  intros Hfirst. unfold start_times.
  induction n as [| n IH]; cbn; [done |].
  rewrite Hfirst. cbn. by rewrite IH.
Qed.

(** C1 fails on the code: [limiter] is built with a spacing of 300 ms and
    at most 5 calls at a time, but no call is scheduled through it.  Each
    of the four clients sends its request as soon as it is called (for
    the token balance, as soon as the two addresses are parsed).  So when
    [n] [/gas] commands are handled at the same time [now], each handler
    sends its request at [now]: any two of the requests start 0 ms apart,
    less than [minTime limiter], and with six commands six requests are
    in flight, more than [maxConcurrent limiter]. *)
Theorem calls_bypass_limiter (host : Host) (now : Z) (n : nat) :
  (forall tokenAddress,
      first_await (getTokenInfoFromSolscan host tokenAddress) =
      Some (tokenInfo_request host tokenAddress)) /\
  (forall address tokenAddress owner mint,
      PublicKey_new host address = Ok owner ->
      PublicKey_new host tokenAddress = Ok mint ->
      first_await (getTokenBalance host address tokenAddress) =
      Some (GetTokenAccountsByOwner (connection host) owner mint)) /\
  first_await (getCryptoPrices host) = Some (prices_request host) /\
  first_await (getSolanaGasFee host) = Some (GetRecentBlockhash (connection host)) /\
  start_times now (replicate n (gas_command host)) =
    replicate n (now, GetRecentBlockhash (connection host)) /\
  (forall t1 t2 r1 r2,
      (t1, r1) ∈ start_times now (replicate n (gas_command host)) ->
      (t2, r2) ∈ start_times now (replicate n (gas_command host)) ->
      is_service_call r1 = true /\ is_service_call r2 = true /\
      (Z.abs (t2 - t1) < minTime limiter)%Z) /\
  (maxConcurrent limiter <
   length (start_times now (replicate 6 (gas_command host))))%nat.
Proof.
  assert (Hgas : forall k, start_times now (replicate k (gas_command host)) =
                           replicate k (now, GetRecentBlockhash (connection host))).
  { intros k. apply start_times_replicate, first_await_gas. }
  split; [reflexivity |].
  split.
  { intros address tokenAddress owner mint Howner Hmint.
    unfold getTokenBalance. rewrite Howner, Hmint. reflexivity. }
  split; [reflexivity |].
  split; [reflexivity |].
  split; [apply Hgas |].
  split.
  - intros t1 t2 r1 r2. rewrite Hgas.
    intros [[= -> ->] _]%elem_of_replicate [[= -> ->] _]%elem_of_replicate.
    repeat split. rewrite Z.sub_diag. reflexivity.
  - rewrite Hgas, length_replicate. cbn. lia.
Qed.

(** ** Launch *)


(** ** What the handlers request, and what they never request *)














(** ** Log lines and replies *)

(** The sub-calls send no reply; they log one error line when one of
    them fails and none otherwise. *)
Lemma sub_calls_logs (host : Host) (w : World) (address tokenAddress : string)
    (h : list Req) :
  exists t,
    (sub_calls host w address tokenAddress h).2 = h ++ t /\
    List.filter is_reply t = [] /\
    length (List.filter is_error_log t) =
    match (sub_calls host w address tokenAddress h).1 with
    | Ok _ => 0%nat
    | Err _ => 1%nat
    end.
Proof.
  unfold sub_calls.
  rewrite run_getTokenInfoFromSolscan.
  destruct (_ ≫= _) as [tokenInfo | e1]; cbn [fst snd];
    [| eexists; split; [reflexivity |]; split; reflexivity].
  rewrite run_getTokenBalance.
  destruct (PublicKey_new host address) as [owner | e2]; cbn [fst snd];
    [| eexists; rewrite <- !app_assoc; split; [reflexivity |]; split; reflexivity].
  destruct (PublicKey_new host tokenAddress) as [mint | e2]; cbn [fst snd];
    [| eexists; rewrite <- !app_assoc; split; [reflexivity |]; split; reflexivity].
  destruct (_ ≫= _) as [uiAmount | e2]; cbn [fst snd];
    [| eexists; rewrite <- !app_assoc; split; [reflexivity |]; split; reflexivity].
  rewrite run_getCryptoPrices.
  destruct (_ ≫= _) as [prices | e3]; cbn [fst snd];
    [| eexists; rewrite <- !app_assoc; split; [reflexivity |]; split; reflexivity].
  rewrite run_getSolanaGasFee.
  destruct (w (GetRecentBlockhash (connection host)) _) as [info | e4]; cbn [fst snd];
    eexists; rewrite <- !app_assoc; (split; [reflexivity |]); split; reflexivity.
Qed.

(** X2: a failed analysis is logged twice, once by the client that
    failed and once by [analyzeToken]; a successful one is not logged at
    all; and the analysis itself never replies to the chat. *)
Theorem analyzeToken_logs (host : Host) (w : World) (address tokenAddress : string)
    (h : list Req) :
  exists t,
    (run w (analyzeToken host address tokenAddress) h).2 = h ++ t /\
    List.filter is_reply t = [] /\
    length (List.filter is_error_log t) =
    match (run w (analyzeToken host address tokenAddress) h).1 with
    | Ok _ => 0%nat
    | Err _ => 2%nat
    end.
Proof.
  destruct (sub_calls_logs host w address tokenAddress h) as (t & Ht & Hreply & Hlogs).
  rewrite run_analyzeToken.
  destruct (sub_calls host w address tokenAddress h) as [[analysis | e] h'];
    cbn [fst snd] in *; subst h'.
  - by exists t.
  - exists (t ++ [LoggerError ("Error during analysis: " +:+ message e)]).
    rewrite <- app_assoc, !List.filter_app, Hreply, length_app, Hlogs.
    by repeat split.
Qed.

Lemma run_check_command (host : Host) (w : World) (h : list Req)
    (text tokenAddress address : string) (rest : list string) :
  command_args text = tokenAddress :: address :: rest ->
  run w (check_command host text) h =
  match run w (analyzeToken host address tokenAddress)
          (h ++ [CtxReply "🔍 Analyzing the token. Please wait..."]) with
  | (Err e, h') => (Ok tt, h' ++ [CtxReply ("❌ Error: " +:+ message e)])
  | (Ok analysis, h') =>
      match check_report host analysis with
      | Err e => (Ok tt, h' ++ [CtxReply ("❌ Error: " +:+ message e)])
      | Ok report => (Ok tt, h' ++ [CtxReply report])
      end
  end.
Proof.
  intros Hargs. unfold check_command. rewrite Hargs. cbn [length Nat.ltb Nat.leb].
  rewrite run_try_catch_reply. cbn [ctx_reply mbind Prog_bind bind run].
  rewrite run_mbind.
  destruct (run w (analyzeToken host address tokenAddress) _) as [[analysis | e] h'];
    [| reflexivity].
  rewrite run_mbind, run_eval.
  destruct (check_report host analysis) as [report | e]; reflexivity.
Qed.


(** ** Arguments: too few, too many, and what they contain *)

(** X4: a [/check] message with fewer than two spaces, and a [/balance]
    message with no space, are answered by the usage line alone: no
    service is called and nothing is logged. *)
Theorem too_few_arguments (host : Host) (w : World) (h : list Req) (text : string) :
  ((count_char " " text < 2)%nat ->
   run w (check_command host text) h =
   (Ok tt, h ++ [CtxReply "❌ Usage: /check <TOKEN_ADDRESS> <SOLANA_ADDRESS>"])) /\
  ((count_char " " text < 1)%nat ->
   run w (balance_command host text) h =
   (Ok tt, h ++ [CtxReply "❌ Usage: /balance <SOLANA_ADDRESS>"])).
Proof.
  assert (Hlength : length (command_args text) = count_char " " text).
  { unfold command_args. rewrite length_drop, js_split_length. lia. }
  split; intros Hfew.
  - unfold check_command.
    replace (length (command_args text) <? 2)%nat with true
      by (symmetry; apply Nat.ltb_lt; lia).
    reflexivity.
  - unfold balance_command.
    replace (length (command_args text) <? 1)%nat with true
      by (symmetry; apply Nat.ltb_lt; lia).
    reflexivity.
Qed.

(** X5: arguments beyond those a command needs are ignored: two [/check]
    messages with the same first two arguments, and two [/balance]
    messages with the same first argument, are handled by the same
    program. *)
Theorem extra_arguments_ignored (host : Host) (text text' : string) :
  ((2 <= length (command_args text))%nat ->
   take 2 (command_args text) = take 2 (command_args text') ->
   check_command host text = check_command host text') /\
  ((1 <= length (command_args text))%nat ->
   take 1 (command_args text) = take 1 (command_args text') ->
   balance_command host text = balance_command host text').
Proof.
  split; intros Hlength Htake.
  - unfold check_command.
    destruct (command_args text) as [| t [| a rest]]; cbn [length] in Hlength; try lia.
    destruct (command_args text') as [| t' [| a' rest']]; try discriminate Htake.
    injection Htake as -> ->. reflexivity.
  - unfold balance_command.
    destruct (command_args text) as [| a rest]; cbn [length] in Hlength; try lia.
    destruct (command_args text') as [| a' rest']; try discriminate Htake.
    injection Htake as ->. reflexivity.
Qed.

Lemma extra_arguments_ignored_witness :
  check_command Sample.host "/check T W" =
  check_command Sample.host "/check T W and more".
Proof.
  apply (extra_arguments_ignored Sample.host "/check T W" "/check T W and more");
    [vm_compute; lia | reflexivity].
Defined.

Lemma js_split_no_separator (sep : Ascii.ascii) (s : string) :
  Forall (fun piece => count_char sep piece = 0%nat) (js_split sep s).
Proof.
  induction s as [| c s IH]; cbn [js_split].
  - by constructor.
  - destruct (Ascii.eqb c sep) eqn:Hc.
    + by constructor.
    + destruct (js_split sep s) as [| w ws]; [by repeat constructor; cbn; rewrite Hc |].
      inversion IH as [| ? ? Hw Hws]; subst.
      constructor; [| exact Hws]. cbn [count_char]. by rewrite Hc, Hw.
Qed.

Lemma js_split_concat (sep : Ascii.ascii) (s : string) :
  String.concat (String sep "") (js_split sep s) = s.
Proof.
  induction s as [| c s IH]; cbn [js_split]; [reflexivity |].
  pose proof (js_split_nonempty sep s) as Hne.
  destruct (Ascii.eqb c sep) eqn:Hc.
  - apply Ascii.eqb_eq in Hc as ->.
    destruct (js_split sep s) as [| w ws]; [done |].
    cbn [String.concat] in *. by rewrite IH.
  - destruct (js_split sep s) as [| w ws]; [done |].
    destruct ws as [| w' ws]; cbn [String.concat] in *; by rewrite <- IH.
Qed.

(** X6: no argument of a command contains a space, and nothing of the
    message is lost by the splitting: the pieces of the text joined by
    single spaces are the text. *)
Theorem command_args_faithful (text : string) :
  Forall (fun argument => count_char " " argument = 0%nat) (command_args text) /\
  String.concat " " (js_split " " text) = text.
Proof.
  split.
  - unfold command_args. apply Forall_drop, js_split_no_separator.
  - apply js_split_concat.
Qed.

(** ** Token balances *)





(** X9: a first token account whose data has no [parsed] field does not
    count as an empty balance: reading [info] from it throws, so the
    lookup fails with the generic error after logging the [TypeError]. *)
Theorem getTokenBalance_unparsed_account (host : Host) (w : World) (h : list Req)
    (address tokenAddress : string) (owner mint : PublicKey)
    (entry account data : JsVal) (others : list JsVal) :
  PublicKey_new host address = Ok owner ->
  PublicKey_new host tokenAddress = Ok mint ->
  w (GetTokenAccountsByOwner (connection host) owner mint) h =
    Ok {| value := entry :: others |} ->
  js_get host entry "account" = Ok account ->
  js_get host account "data" = Ok data ->
  js_get host data "parsed" = Ok JUndefined ->
  run w (getTokenBalance host address tokenAddress) h =
  (Err (Error_new "Failed to fetch token balance."),
   h ++ [GetTokenAccountsByOwner (connection host) owner mint;
         LoggerError ("Error fetching token balance: " +:+
                      message (TypeError_read host JUndefined "info"))]).
Proof.
  intros Howner Hmint Hrpc Haccount Hdata Hparsed.
  rewrite run_getTokenBalance, Howner, Hmint. cbv zeta. rewrite Hrpc.
  cbn [mbind Result_bind]. unfold first_uiAmount. cbn [value lookup list_lookup].
  destruct entry; try discriminate Haccount;
    unfold_monad; rewrite Haccount, Hdata, Hparsed; reflexivity.
Qed.

Lemma getTokenBalance_unparsed_account_witness :
  run (Sample.world (Cases.holding [Cases.encoded_entry]))
      (getTokenBalance Sample.host Sample.wallet Sample.mint) [] =
  (Err (Error_new "Failed to fetch token balance."),
   [] ++ [GetTokenAccountsByOwner (connection Sample.host)
            Sample.wallet_key Sample.mint_key;
          LoggerError ("Error fetching token balance: " +:+
                       message (TypeError_read Sample.host JUndefined "info"))]).
Proof.
  apply (getTokenBalance_unparsed_account Sample.host _ [] Sample.wallet Sample.mint
           Sample.wallet_key Sample.mint_key Cases.encoded_entry
           (JObj [("data", JArr [JStr "AQID"; JStr "base64"])])
           (JArr [JStr "AQID"; JStr "base64"]) []);
    vm_compute; reflexivity.
Defined.

(** ** Price batches *)

Lemma js_get_total (host : Host) (v x : JsVal) (p q : string) :
  js_get host v p = Ok x -> exists y, js_get host v q = Ok y.
Proof. destruct v; cbn; try discriminate; by eexists. Qed.

Lemma set_price_succeeds (host : Host) (o : Obj) (coin : JsVal) :
  (exists o', set_price host o coin = Ok o') <->
  (exists key, coin_key host coin = Ok key).
Proof.
  split.
  - intros [o' Hset].
    destruct (set_price_inv host o o' coin Hset) as (key & _ & Hkey & _).
    by exists key.
  - intros [key Hkey]. unfold set_price, coin_key in *. unfold_monad.
    destruct (js_get host coin "id") as [id | e] eqn:Hid; [| discriminate].
    destruct (js_get_total host coin id "id" "current_price" Hid) as [price ->].
    rewrite Hkey. by eexists.
Qed.

Lemma forEach_set_price_succeeds (host : Host) (coins : list JsVal) (o : Obj) :
  (exists o', forEach_set_price host coins o = Ok o') <->
  Forall (fun coin => exists key, coin_key host coin = Ok key) coins.
Proof.
  revert o. induction coins as [| coin coins IH]; intros o; cbn [forEach_set_price].
  - split; [by constructor | by eexists].
  - unfold_monad. split.
    + intros [o' Hrun].
      destruct (set_price host o coin) as [o1 | e] eqn:Hset; [| discriminate].
      constructor.
      * apply (set_price_succeeds host o coin). by exists o1.
      * apply (IH o1). by exists o'.
    + intros Hall. inversion Hall as [| ? ? Hcoin Hcoins]; subst.
      apply (set_price_succeeds host o coin) in Hcoin as [o1 ->].
      by apply IH.
Qed.

(** X10: a price batch is accepted exactly when the response is an array
    each of whose entries has an id that converts to a property key (an
    entry that is [null] or [undefined] has none); any other response,
    an error object or a text for instance, is refused. *)
Theorem collect_prices_succeeds (host : Host) :
  (forall coins,
      (exists prices, collect_prices host (JArr coins) = Ok prices) <->
      Forall (fun coin => exists key, coin_key host coin = Ok key) coins) /\
  (forall data,
      (forall coins, data ≠ JArr coins) ->
      exists e, collect_prices host data = Err e).
Proof.
  split.
  - intros coins. apply forEach_set_price_succeeds.
  - intros data Hshape. destruct data; cbn [collect_prices]; try by eexists.
    by destruct (Hshape items).
Qed.




(** X12: the ids of a batch are used as property keys without a check, so
    an entry whose id is [__proto__] and whose price is an object is not
    filed as a price: it becomes the prototype of [prices], and the
    fields of that object are then read as the prices of [solana],
    [bitcoin] and [ethereum]. *)
Theorem proto_entry_supplies_prices (host : Host) (coin : JsVal)
    (props : list (string * JsVal)) :
  coin_key host coin = Ok "__proto__" ->
  js_get host coin "current_price" = Ok (JObj props) ->
  exists prices,
    collect_prices host (JArr [coin]) = Ok prices /\
    own prices = ∅ /\
    Forall (fun k => obj_get prices k = default JUndefined (assoc k props))
           ["solana"; "bitcoin"; "ethereum"].
Proof.
  intros Hkey Hprice. unfold coin_key in Hkey. unfold_monad.
  destruct (js_get host coin "id") as [id | e] eqn:Hid; [| discriminate].
  exists {| own := ∅; proto := ProtoVal (JObj props) |}.
  split; [| split; [reflexivity | by repeat constructor]].
  cbn [collect_prices forEach_set_price]. unfold set_price. unfold_monad.
  rewrite Hid, Hprice, Hkey. reflexivity.
Qed.

Lemma proto_entry_supplies_prices_witness :
  exists prices,
    collect_prices Sample.host
      (JArr [JObj [("id", JStr "__proto__");
                   ("current_price", JObj [("solana", JNum 1)])]]) = Ok prices /\
    own prices = ∅ /\
    Forall (fun k => obj_get prices k =
                     default JUndefined (assoc k [("solana", JNum 1)]))
           ["solana"; "bitcoin"; "ethereum"].
Proof.
  apply (proto_entry_supplies_prices Sample.host
           (JObj [("id", JStr "__proto__");
                  ("current_price", JObj [("solana", JNum 1)])])
           [("solana", JNum 1)]);
    reflexivity.
Defined.

(** ** Help and configuration *)

(** Split [hay] around the first occurrence of [needle]. *)
Ltac split_around needle hay :=
  let found := eval vm_compute in (String.index 0 needle hay) in
  lazymatch found with
  | Some ?n =>
      exists (String.substring 0 n hay),
             (String.substring (n + String.length needle) (String.length hay) hay);
      vm_compute; reflexivity
  end.

(** X13: [/help] is answered from the file alone: in every world, and
    whatever follows the command, the one request of the handler is the
    reply with the help text; and the text names every command that has
    a handler. *)
Theorem help_lists_commands (host : Host) (w : World) (h : list Req) (text : string) :
  run w (handle host CmdHelp text) h = (Ok tt, h ++ [CtxReply help_text]) /\
  forall c, exists before after,
      help_text = before +:+ "/" +:+ command_name c +:+ " " +:+ after.
Proof.
  split; [reflexivity |].
  intros c; destruct c; cbn [command_name].
  - split_around "/check " help_text.
  - split_around "/balance " help_text.
  - split_around "/prices " help_text.
  - split_around "/gas " help_text.
  - split_around "/help " help_text.
Qed.


(** ** Token metadata *)

(** X15: the metadata fetch accepts any response body but [null] and
    [undefined]: it fails exactly when the request is rejected or the
    body is one of these two, and otherwise returns the [data] field of
    the body, which is [undefined] when the body has none (a text, a
    number, an object without the field). *)
Theorem getTokenInfoFromSolscan_accepts (host : Host) (w : World) (h : list Req)
    (tokenAddress : string) :
  ((exists tokenInfo h',
       run w (getTokenInfoFromSolscan host tokenAddress) h = (Ok tokenInfo, h')) <->
   (exists body,
       w (tokenInfo_request host tokenAddress) h = Ok body /\
       body ≠ JUndefined /\ body ≠ JNull)) /\
  (forall body,
      w (tokenInfo_request host tokenAddress) h = Ok body ->
      body ≠ JUndefined -> body ≠ JNull ->
      run w (getTokenInfoFromSolscan host tokenAddress) h =
      (Ok match body with
          | JObj props => default JUndefined (assoc "data" props)
          | _ => JUndefined
          end,
       h ++ [tokenInfo_request host tokenAddress])).
Proof.
  split.
  - rewrite run_getTokenInfoFromSolscan. split.
    + intros (tokenInfo & h' & Hrun).
      destruct (w (tokenInfo_request host tokenAddress) h) as [body | e];
        cbn [mbind Result_bind] in Hrun; [| discriminate].
      exists body. by destruct body.
    + intros (body & -> & Hundefined & Hnull). cbn [mbind Result_bind].
      destruct body; try done; by eexists _, _.
  - intros body Hbody Hundefined Hnull.
    rewrite run_getTokenInfoFromSolscan, Hbody. cbn [mbind Result_bind].
    by destruct body.
Qed.

Lemma sub_calls_tokenInfo (host : Host) (w : World) (address tokenAddress : string)
    (h h' : list Req) (analysis : Analysis) :
  sub_calls host w address tokenAddress h = (Ok analysis, h') ->
  (w (tokenInfo_request host tokenAddress) h : Result JsVal)
    ≫= (fun data => js_get host data "data") = Ok (tokenInfo analysis).
Proof.
  unfold sub_calls. rewrite run_getTokenInfoFromSolscan.
  destruct (_ ≫= _) as [tokenInfo | e]; [| discriminate].
  destruct (run w (getTokenBalance host address tokenAddress) _) as [[balance | e] h2];
    [| discriminate].
  destruct (run w (getCryptoPrices host) h2) as [[prices | e] h3]; [| discriminate].
  destruct (run w (getSolanaGasFee host) h3) as [[gasFee | e] h4]; [| discriminate].
  by intros [= <- <-].
Qed.

(** X16: a token the metadata service does not describe is found out
    late.  When the body of the metadata response has no [data] field
    and the other three calls succeed, the analysis succeeds with an
    undefined [tokenInfo]; [/check] has then called all four services,
    and its second reply is the [TypeError] raised by reading [name]. *)
Theorem check_without_metadata (host : Host) (w : World) (h h' : list Req)
    (text tokenAddress address : string) (rest : list string)
    (body : JsVal) (analysis : Analysis) :
  command_args text = tokenAddress :: address :: rest ->
  w (tokenInfo_request host tokenAddress)
    (h ++ [CtxReply "🔍 Analyzing the token. Please wait..."]) = Ok body ->
  js_get host body "data" = Ok JUndefined ->
  run w (analyzeToken host address tokenAddress)
      (h ++ [CtxReply "🔍 Analyzing the token. Please wait..."]) = (Ok analysis, h') ->
  tokenInfo analysis = JUndefined /\
  run w (check_command host text) h =
    (Ok tt,
     h' ++ [CtxReply ("❌ Error: " +:+ message (TypeError_read host JUndefined "name"))]) /\
  exists t,
    h' = h ++ CtxReply "🔍 Analyzing the token. Please wait..." :: t /\
    List.filter is_service_call t = analysis_requests host address tokenAddress.
Proof.
  intros Hargs Hbody Hdata Hrun.
  pose proof Hrun as Hsub. rewrite run_analyzeToken in Hsub.
  destruct (sub_calls_requests host w address tokenAddress
              (h ++ [CtxReply "🔍 Analyzing the token. Please wait..."]))
    as (t & Ht & _ & Hall).
  destruct (sub_calls host w address tokenAddress _) as [[a | e] h1] eqn:Hcalls;
    [| discriminate].
  assert (a = analysis /\ h1 = h') as [-> ->] by (by injection Hsub).
  apply sub_calls_tokenInfo in Hcalls as HtokenInfo.
  rewrite Hbody in HtokenInfo. cbn [mbind Result_bind] in HtokenInfo.
  rewrite Hdata in HtokenInfo. injection HtokenInfo as HtokenInfo.
  split; [by symmetry |].
  split.
  - rewrite (run_check_command host w h text tokenAddress address rest Hargs), Hrun.
    unfold check_report. rewrite <- HtokenInfo. reflexivity.
  - exists t. cbn [fst snd] in *. split; [by rewrite Ht, <- app_assoc |].
    by apply (Hall analysis).
Qed.

Lemma check_without_metadata_witness :
  tokenInfo {| tokenInfo := JUndefined; balance := JNum 0;
               prices := prices Sample.analysis; gasFee := gasFee Sample.analysis |} =
  JUndefined.
Proof.
  apply (check_without_metadata Sample.host
           (Sample.world
              (Cases.answering
                 (JObj [("success", JBool false)])
                 (JArr [Sample.coin "bitcoin" 67000; Sample.coin "ethereum" 3500.5;
                        Sample.coin "solana" 150.25])))
           []
           ([CtxReply "🔍 Analyzing the token. Please wait..."] ++
            [tokenInfo_request Sample.host Sample.mint;
             GetTokenAccountsByOwner (connection Sample.host)
               Sample.wallet_key Sample.mint_key;
             prices_request Sample.host;
             GetRecentBlockhash (connection Sample.host)])
           ("/check " +:+ Sample.mint +:+ " " +:+ Sample.wallet)
           Sample.mint Sample.wallet [] (JObj [("success", JBool false)]));
    vm_compute; reflexivity.
Defined.

(** ** Prices of the coins of a batch *)

(** X17: every coin of an accepted batch can be looked up again: when the
    ids of the batch are distinct, the price filed under the key of a
    coin (other than [__proto__]) is the current price of that coin,
    wherever the coin stands in the batch. *)
Theorem price_of_listed_coin (host : Host) (coins : list JsVal) (prices : Obj)
    (coin : JsVal) (k : string) :
  collect_prices host (JArr coins) = Ok prices ->
  NoDup (coin_key host <$> coins) ->
  coin ∈ coins ->
  coin_key host coin = Ok k ->
  k ≠ "__proto__" ->
  js_get host coin "current_price" = Ok (obj_get prices k).
Proof.
  intros Hcollect Hdistinct Hcoin Hkey Hk.
  apply list_elem_of_split in Hcoin as (before & after & ->).
  apply (collect_prices_last host before after coin k prices Hk Hkey); [| exact Hcollect].
  rewrite fmap_app, fmap_cons in Hdistinct.
  apply NoDup_app in Hdistinct as (_ & _ & Hafter).
  apply NoDup_cons in Hafter as [Hfresh _].
  apply Forall_forall. intros coin' Hcoin' Hkey'.
  apply Hfresh. rewrite Hkey, <- Hkey'. by apply list_elem_of_fmap_2.
Qed.

Lemma price_of_listed_coin_witness :
  js_get Sample.host (Sample.coin "ethereum" 3500.5) "current_price" =
  Ok (obj_get (prices Sample.analysis) "ethereum").
Proof.
  apply (price_of_listed_coin Sample.host
           [Sample.coin "bitcoin" 67000; Sample.coin "ethereum" 3500.5;
            Sample.coin "solana" 150.25]).
  - vm_compute. reflexivity.
  - vm_compute.
    rewrite !NoDup_cons, !not_elem_of_cons, elem_of_nil, NoDup_nil.
    repeat split; first [discriminate | tauto | apply not_elem_of_nil].
  - rewrite !elem_of_cons. right. left. reflexivity.
  - reflexivity.
  - discriminate.
Defined.

(** ** Starting the bot *)

